(** * Brake-requirements converters: a shallow embedding and its properties

    The repository holds five stand-alone Python scripts that turn one
    hierarchical JSON document (document -> chapters -> subchapters ->
    work items) into JSON payloads for a requirements-management system:

    - [Headings]   : convert_brake_to_polarion_headings.py
    - [Synthetic]  : archive_scripts/convert_brake_requirements_to_polarion.py
    - [NoHeadings] : archive_scripts/convert_brake_requirements_to_polarion_no_headings.py
    - [Individual] : archive_scripts/convert_brake_to_polarion_individual.py
    - [Exact]      : archive_scripts/convert_brake_to_polarion_exact.py

    Conventions of the embedding.
    - A JSON object read by the scripts is a record whose fields are
      [option]s: [None] is an absent key.  [d.get(k, v)] is [default v],
      [d[k]] raises [KeyError k] on [None], [k in d] is [is_some].
    - A Python exception is a value of [exn]; fallible code lives in the
      [result] monad.  [for] loops that append to a list are [for_each]
      folds over an accumulator, in source order.
    - A dict whose iteration order is observed is an insertion-ordered
      association list; a dict that is only looked up is a [gmap].
    - Text is ASCII: [str.lower], [\d] and [\s] are modelled on ASCII
      characters.
    - [self.timestamp] (the wall clock at construction) is a field of the
      converter object. *)

From Stdlib Require Import String Ascii List Bool Arith Lia DecimalString.
From Stdlib Require Import Decimal DecimalNat DecimalFacts.
From stdpp Require Import base option list strings gmap.

Local Open Scope string_scope.
Local Open Scope list_scope.

(** ** Python exceptions and the result monad *)

Inductive exn : Type :=
  | KeyError (key : string)
  | TypeError (what : string).

Inductive result (A : Type) : Type :=
  | Ok (a : A)
  | Raise (e : exn).

Arguments Ok {A} a.
Arguments Raise {A} e.

Definition result_bind {A B} (f : A -> result B) (m : result A) : result B :=
  match m with
  | Ok a => f a
  | Raise e => Raise e
  end.

#[global] Instance result_ret : MRet result := fun _ a => Ok a.
#[global] Instance result_mbind : MBind result := fun _ _ f m => result_bind f m.

(** [d[k]] on a key that may be absent. *)
Definition getitem {A} (key : string) (field : option A) : result A :=
  match field with
  | Some v => Ok v
  | None => Raise (KeyError key)
  end.

(** [for x in l: acc = body acc x], stopping at the first exception. *)
Fixpoint for_each {A S} (body : S -> A -> result S) (l : list A) (acc : S)
  : result S :=
  match l with
  | [] => Ok acc
  | x :: l' =>
      match body acc x with
      | Ok acc' => for_each body l' acc'
      | Raise e => Raise e
      end
  end.

(** [enumerate(l, start)] *)
Fixpoint enumerate {A} (start : nat) (l : list A) : list (nat * A) :=
  match l with
  | [] => []
  | x :: l' => (start, x) :: enumerate (S start) l'
  end.

(** [str(n)] for a non-negative integer. *)
Definition str_of_nat (n : nat) : string :=
  NilZero.string_of_uint (Nat.to_uint n).

(** ** Strings: [lower], [in], and [re.sub(r'^\d+\.?\d*\s+', '', s)] *)

Definition is_digit (c : ascii) : bool :=
  let n := nat_of_ascii c in ((48 <=? n) && (n <=? 57))%nat.

(** ASCII characters matched by [\s]: tab, LF, VT, FF, CR, the four
    separators 0x1c-0x1f, and space. *)
Definition is_space (c : ascii) : bool :=
  let n := nat_of_ascii c in
  (((9 <=? n) && (n <=? 13)) || ((28 <=? n) && (n <=? 31)) || (n =? 32))%nat.

Definition lower_ascii (c : ascii) : ascii :=
  let n := nat_of_ascii c in
  if ((65 <=? n) && (n <=? 90))%nat then ascii_of_nat (n + 32) else c.

Fixpoint lower (s : string) : string :=
  match s with
  | EmptyString => EmptyString
  | String c s' => String (lower_ascii c) (lower s')
  end.

(** [needle in hay] on strings. *)
Fixpoint str_in (needle hay : string) : bool :=
  String.prefix needle hay ||
  match hay with
  | EmptyString => false
  | String _ hay' => str_in needle hay'
  end.

(** Drop the longest prefix of characters satisfying [p]; also report how
    many were dropped. *)
Fixpoint span_drop (p : ascii -> bool) (s : string) : nat * string :=
  match s with
  | String c s' =>
      if p c then let '(n, r) := span_drop p s' in (S n, r) else (0, s)
  | EmptyString => (0, s)
  end.

(** The regular expression [^\d+\.?\d*\s+] has one way to match: all
    leading digits, then a dot when one follows, then all digits, then all
    whitespace (at least one).  A shorter [\d+] followed by an empty [\.?]
    leaves [\d*] to take the same digits and loses the dot, and an empty
    [\.?] before a dot leaves [\s+] facing that dot, so backtracking finds
    no match the greedy run misses.  [re.sub] removes
    the match, which is anchored at the start, and keeps the rest. *)
Definition strip_outline (s : string) : string :=
  let '(n1, r1) := span_drop is_digit s in
  if (n1 =? 0)%nat then s else
  let r2 := match r1 with
            | String "." r => r
            | _ => r1
            end in
  let '(_, r3) := span_drop is_digit r2 in
  let '(n4, r4) := span_drop is_space r3 in
  if (n4 =? 0)%nat then s else r4.

(** ** Insertion-ordered dicts *)

Definition odict (V : Type) : Type := list (string * V).

Fixpoint odict_get {V} (d : odict V) (k : string) : option V :=
  match d with
  | [] => None
  | (k', v) :: d' => if String.eqb k' k then Some v else odict_get d' k
  end.

Definition odict_mem {V} (d : odict V) (k : string) : bool :=
  match odict_get d k with Some _ => true | None => false end.

(** [d[k] = v]: an existing key keeps its place, a new key goes last. *)
Fixpoint odict_set {V} (d : odict V) (k : string) (v : V) : odict V :=
  match d with
  | [] => [(k, v)]
  | (k', v') :: d' =>
      if String.eqb k' k then (k', v) :: d' else (k', v') :: odict_set d' k v
  end.

(** [d.update(other)] *)
Definition odict_update {V} (d other : odict V) : odict V :=
  fold_left (fun acc kv => odict_set acc (fst kv) (snd kv)) other d.

(** ** The input document tree *)

Record requirement : Type := {
  req_id : option string;
  req_title : option string;
  req_description : option string;
  req_category : option string;
  req_priority : option string
}.

Record subchapter : Type := {
  sub_heading : option string;
  sub_heading_id : option string;
  sub_outlineNumber : option string;
  sub_workitems : option (list requirement)
}.

Record chapter : Type := {
  ch_heading : option string;
  ch_heading_id : option string;
  ch_outlineNumber : option string;
  ch_description : option string;
  ch_workitems : option (list requirement);
  ch_subchapters : option (list subchapter)
}.

(** The value under ["chapters"]: a JSON array of chapters, or a JSON
    number, boolean or null. *)
Inductive chapters_value : Type :=
  | ChaptersList (cs : list chapter)
  | ChaptersScalar.

Record document : Type := {
  doc_id : option string;
  doc_title : option string;
  doc_project : option string;
  doc_space : option string;
  doc_version : option string;
  doc_created : option string;
  doc_chapters : option chapters_value
}.

(** The top-level JSON object of the input file. *)
Record brake_data : Type := {
  data_document : option document
}.

(** [{}] as a document. *)
Definition empty_document : document :=
  {| doc_id := None; doc_title := None; doc_project := None;
     doc_space := None; doc_version := None; doc_created := None;
     doc_chapters := None |}.

(** [for chapter in v]: a list iterates, a scalar is not iterable. *)
Definition iter_chapters (v : chapters_value) : result (list chapter) :=
  match v with
  | ChaptersList cs => Ok cs
  | ChaptersScalar => Raise (TypeError "object is not iterable")
  end.

(** ** Output records *)

Record link : Type := {
  target_id : string;
  role : string;
  link_description : string
}.

(** The ["description"] object of a work item. *)
Record description : Type := {
  desc_type : string;
  desc_value : string
}.

(** [relationships.module.data] *)
Record module_ref : Type := {
  rel_type : string;
  rel_id : string
}.

(** The ["work_item"] object of the nested output format (headings,
    individual and exact converters). *)
Record work_item_fields : Type := {
  wi_type : string;
  wi_title : string;
  wi_description : description;
  wi_status : string;
  wi_severity : string;
  wi_priority : string;
  wi_module : module_ref
}.

(** One entry of ["work_items"] in the nested output format. *)
Record linked_item : Type := {
  work_item : work_item_fields;
  links : list link;
  children : list work_item_fields
}.

(** One entry of ["work_items"] in the flat output format (synthetic and
    no-headings converters); optional fields are keys that some items
    lack. *)
Record custom_fields : Type := {
  cf_requirement_id : string;
  cf_category : string;
  cf_original_priority : string
}.

Record flat_item : Type := {
  fi_id : string;
  fi_type : string;
  fi_title : string;
  fi_description : description;
  fi_status : string;
  fi_severity : option string;
  fi_priority : string;
  fi_categories : option (list string);
  fi_custom_fields : option custom_fields;
  fi_module : module_ref;
  fi_outlineNumber : option string;
  fi_links : option (list link)
}.

(** What a run of a script leaves behind: the exit status ([None] when the
    script returns normally), the error lines it printed, and the output
    file when one was written. *)
Record outcome (O : Type) : Type := {
  exit_status : option nat;
  errors : list string;
  written : option O
}.

Arguments exit_status {O} _.
Arguments errors {O} _.
Arguments written {O} _.

(** [print_error(msg); sys.exit(1)] before anything is written. *)
Definition exit1 {O} (msg : string) : outcome O :=
  {| exit_status := Some 1; errors := [msg]; written := None |}.

(** The input file as the script finds it.  The error lines for a
    missing or malformed file are kept without the path and the parser's
    detail. *)
Inductive input_file (A : Type) : Type :=
  | FileMissing
  | InvalidJson
  | Json (data : A).

Arguments FileMissing {A}.
Arguments InvalidJson {A}.
Arguments Json {A} data.

(** [str(e)] for the exceptions of the model. *)
Definition str_of_exn (e : exn) : string :=
  match e with
  | KeyError k => "'" ++ k ++ "'"
  | TypeError m => m
  end.

(** The priority and severity tables that [create_workitem_format] and
    [create_workitem_exact_format] rebuild on every call; the three
    scripts carry the same literal. *)
Definition priority_map : odict string :=
  [("Critical", "high"); ("High", "high"); ("Medium", "medium"); ("Low", "low")].

Definition severity_map (requirement : requirement) : odict string :=
  [("Safety", if decide (req_priority requirement = Some "Critical")
              then "safety_critical" else "must_have");
   ("Functional", "must_have");
   ("Performance", "must_have");
   ("Interface", "should_have");
   ("Environmental", "should_have");
   ("Maintenance", "could_have");
   ("Regulatory", "must_have");
   ("Testing", "should_have")].

(** The ["work_item"] object the three scripts build. *)
Definition nested_work_item (timestamp document_id : string)
    (requirement : requirement) : result work_item_fields :=
  title ← getitem "title" (req_title requirement);
  descr ← getitem "description" (req_description requirement);
  mret {|
    wi_type := "requirement";
    wi_title := title ++ " " ++ timestamp;
    wi_description :=
      {| desc_type := "text/html"; desc_value := "<p>" ++ descr ++ "</p>" |};
    wi_status := "draft";
    wi_severity :=
      default "must_have"
        (odict_get (severity_map requirement)
           (default "Functional" (req_category requirement)));
    wi_priority :=
      default "medium"
        (odict_get priority_map (default "Medium" (req_priority requirement)));
    wi_module := {| rel_type := "documents"; rel_id := document_id |}
  |}.

(** ** convert_brake_to_polarion_headings.py *)
Module Headings.

Record converter : Type := {
  timestamp : string;
  document_id : string
}.

(** [PolarionHeadingConverter.create_workitem_format] *)
Definition create_workitem_format (self : converter) (requirement : requirement)
    (parent_heading_id parent_heading_title : string) : result linked_item :=
  wi ← nested_work_item (timestamp self) (document_id self) requirement;
  mret {|
    work_item := wi;
    links := [ {| target_id := parent_heading_id;
                  role := "has_parent";
                  link_description := "Links to " ++ parent_heading_title |} ];
    children := []
  |}.

(** The body of both [for req in ...["workitems"]] loops: build the
    item, append it, then print a line that reads [req['id']] and
    [req['title']]. *)
Definition emit (self : converter) (heading_id title : string)
    (output_items : list linked_item) (req : requirement)
  : result (list linked_item) :=
  workitem ← create_workitem_format self req heading_id title;
  _ ← getitem "id" (req_id req);
  _ ← getitem "title" (req_title req);
  mret (output_items ++ [workitem]).

(** The body of [for subchapter in chapter.get("subchapters", [])]. *)
Definition process_subchapter_body (self : converter)
    (heading_map : gmap string string)
    (output_items : list linked_item) (subchapter : subchapter)
  : result (list linked_item) :=
  let subchapter_heading := default "" (sub_heading subchapter) in
  let subchapter_heading_id := default "" (sub_heading_id subchapter) in
  let subchapter_title :=
    default subchapter_heading (heading_map !! subchapter_heading_id) in
  match sub_workitems subchapter with
  | Some ((_ :: _) as workitems) =>
      for_each (emit self subchapter_heading_id subchapter_title)
        workitems output_items
  | _ => mret output_items
  end.

(** The body of [for chapter in document.get("chapters", [])]. *)
Definition process_chapter_body (self : converter)
    (heading_map : gmap string string)
    (output_items : list linked_item) (chapter : chapter)
  : result (list linked_item) :=
  let chapter_heading := default "" (ch_heading chapter) in
  let chapter_heading_id := default "" (ch_heading_id chapter) in
  let chapter_title :=
    default chapter_heading (heading_map !! chapter_heading_id) in
  output_items ←
    match ch_workitems chapter with
    | Some ((_ :: _) as workitems) =>
        for_each (emit self chapter_heading_id chapter_title)
          workitems output_items
    | _ => mret output_items
    end;
  for_each (process_subchapter_body self heading_map)
    (default [] (ch_subchapters chapter)) output_items.

(** [PolarionHeadingConverter.process_requirements] *)
Definition process_requirements (self : converter) (brake_data : brake_data)
    (heading_map : gmap string string) : result (list linked_item) :=
  let document := default empty_document (data_document brake_data) in
  chapters ← iter_chapters (default (ChaptersList []) (doc_chapters document));
  for_each (process_chapter_body self heading_map) chapters [].

Record metadata : Type := {
  total_items : nat;
  meta_document_id : string;
  conversion_timestamp : string;
  note : string
}.

Record output : Type := {
  work_items : list linked_item;
  meta : metadata
}.

(** [PolarionHeadingConverter.run], from the two loaded JSON values to
    the object it dumps.  An exception is not caught: the script dies
    with a traceback, status 1, and writes nothing. *)
Definition run (self : converter) (brake_data : brake_data)
    (heading_map : gmap string string) : outcome output :=
  match process_requirements self brake_data heading_map with
  | Ok output_items =>
      {| exit_status := None;
         errors := [];
         written := Some
           {| work_items := output_items;
              meta := {| total_items := length output_items;
                         meta_document_id := document_id self;
                         conversion_timestamp := timestamp self;
                         note := "Each requirement links to its chapter/subchapter heading via has_parent" |} |} |}
  | Raise e => exit1 (str_of_exn e)
  end.

End Headings.

(** ** The lookup functions shared by the two archived flat converters

    [map_priority], [map_severity] and [map_status] are the same text in
    convert_brake_requirements_to_polarion.py and in
    convert_brake_requirements_to_polarion_no_headings.py. *)

Definition flat_priority_map : odict string :=
  [("Critical", "100.0"); ("High", "90.0"); ("Medium", "50.0"); ("Low", "30.0")].

(** [BrakeRequirementsConverter.map_priority] *)
Definition map_priority (priority : string) : string :=
  default "50.0" (odict_get flat_priority_map priority).

(** [BrakeRequirementsConverter.map_severity] *)
Definition map_severity (category priority : string) : string :=
  if String.eqb category "Safety" && String.eqb priority "Critical"
  then "safety_critical"
  else if String.eqb priority "Critical" then "must_have"
  else if String.eqb priority "High" then "should_have"
  else if String.eqb priority "Medium" then "could_have"
  else "nice_to_have".

Definition status_map : odict string :=
  [("Regulatory", "approved"); ("Safety", "in_review");
   ("Functional", "draft"); ("Performance", "draft"); ("Interface", "draft");
   ("Environmental", "draft"); ("Maintenance", "draft"); ("Testing", "draft")].

(** [BrakeRequirementsConverter.map_status] *)
Definition map_status (category : string) : string :=
  default "draft" (odict_get status_map category).

(** The requirement dict both flat converters build; the keys of [req]
    are read in the order of the dict literal. *)
Definition flat_requirement (document_id : string) (req : requirement)
    (parent_link : link) (outline_number : string) : result flat_item :=
  id ← getitem "id" (req_id req);
  title ← getitem "title" (req_title req);
  descr ← getitem "description" (req_description req);
  category ← getitem "category" (req_category req);
  priority ← getitem "priority" (req_priority req);
  mret {|
    fi_id := "Python/" ++ id;
    fi_type := "requirement";
    fi_title := title;
    fi_description :=
      {| desc_type := "text/html"; desc_value := "<p>" ++ descr ++ "</p>" |};
    fi_status := map_status category;
    fi_severity := Some (map_severity category priority);
    fi_priority := map_priority priority;
    fi_categories := Some [lower category];
    fi_custom_fields :=
      Some {| cf_requirement_id := id; cf_category := category;
              cf_original_priority := priority |};
    fi_module := {| rel_type := "documents"; rel_id := document_id |};
    fi_outlineNumber := Some outline_number;
    fi_links := Some [parent_link]
  |}.

(** Python truthiness of an optional string argument ([if parent_id:]). *)
Definition truthy (s : option string) : bool :=
  match s with
  | Some (String _ _) => true
  | _ => false
  end.

(** The error lines [validate_input] can print. *)
Definition missing_document_msg : string := "Missing 'document' key in input JSON".
Definition missing_key_msg (key : string) : string :=
  "Missing required key '" ++ key ++ "' in document".
Definition chapters_not_list_msg : string := "'chapters' must be a list".

(** [key in doc] for the keys [validate_input] asks about. *)
Definition doc_has_key (doc : document) (key : string) : bool :=
  if String.eqb key "id" then bool_decide (is_Some (doc_id doc))
  else if String.eqb key "title" then bool_decide (is_Some (doc_title doc))
  else if String.eqb key "project" then bool_decide (is_Some (doc_project doc))
  else if String.eqb key "space" then bool_decide (is_Some (doc_space doc))
  else if String.eqb key "version" then bool_decide (is_Some (doc_version doc))
  else if String.eqb key "created" then bool_decide (is_Some (doc_created doc))
  else if String.eqb key "chapters" then bool_decide (is_Some (doc_chapters doc))
  else false.

Definition required_keys : list string :=
  ["id"; "title"; "project"; "space"; "chapters"].

(** [BrakeRequirementsConverter.validate_input] (the same text in both
    flat converters): the verdict and the error line printed, if any. *)
Definition validate_input (data : brake_data) : bool * list string :=
  match data_document data with
  | None => (false, [missing_document_msg])
  | Some doc =>
      match List.find (fun key => negb (doc_has_key doc key)) required_keys with
      | Some key => (false, [missing_key_msg key])
      | None =>
          match doc_chapters doc with
          | Some (ChaptersList _) => (true, [])
          | _ => (false, [chapters_not_list_msg])
          end
      end
  end.

(** ** archive_scripts/convert_brake_requirements_to_polarion.py *)
Module Synthetic.

Record converter : Type := {
  timestamp : string;
  document_id : string;
  work_items : list flat_item;
  heading_counter : nat
}.

(** [BrakeRequirementsConverter.__init__] *)
Definition new_converter (now : string) : converter :=
  {| timestamp := now;
     document_id := "Python/_default/Functional Concept - Brake System";
     work_items := [];
     heading_counter := 1000 |}.

Definition set_heading_counter (self : converter) (n : nat) : converter :=
  {| timestamp := timestamp self; document_id := document_id self;
     work_items := work_items self; heading_counter := n |}.

Definition set_work_items (self : converter) (l : list flat_item) : converter :=
  {| timestamp := timestamp self; document_id := document_id self;
     work_items := l; heading_counter := heading_counter self |}.

(** [generate_heading_id]: bump the counter, format the new value. *)
Definition generate_heading_id (self : converter) : string * converter :=
  let n := heading_counter self + 1 in
  (("Python/BR-HEAD-" ++ str_of_nat n)%string, set_heading_counter self n).

Definition has_parent (target description : string) : link :=
  {| target_id := target; role := "has_parent"; link_description := description |}.

Definition heading_item (self : converter) (id title html priority : string)
    (outline : option string) (lnks : option (list link)) : flat_item :=
  {| fi_id := id;
     fi_type := "heading";
     fi_title := title;
     fi_description := {| desc_type := "text/html"; desc_value := html |};
     fi_status := "approved";
     fi_severity := None;
     fi_priority := priority;
     fi_categories := None;
     fi_custom_fields := None;
     fi_module := {| rel_type := "documents"; rel_id := document_id self |};
     fi_outlineNumber := outline;
     fi_links := lnks |}.

(** [create_requirement_workitem] *)
Definition create_requirement_workitem (self : converter) (req : requirement)
    (parent_heading_id outline_number : string) : result flat_item :=
  flat_requirement (document_id self) req
    (has_parent parent_heading_id "Links to chapter heading") outline_number.

(** The [for idx, workitem in enumerate(..., 1)] loops. *)
Definition append_requirements (self : converter) (parent_heading_id prefix : string)
    (workitems : list requirement) (items : list flat_item)
  : result (list flat_item) :=
  for_each
    (fun items '(idx, workitem) =>
       let outline := (prefix ++ "." ++ str_of_nat idx)%string in
       w ← create_requirement_workitem self workitem parent_heading_id outline;
       mret (items ++ [w]))
    (enumerate 1 workitems) items.

(** [process_subchapter] *)
Definition process_subchapter (self : converter) (subchapter : subchapter)
    (chapter_num sub_num : nat) (parent_heading_id : string)
  : result (list flat_item * converter) :=
  let '(subchapter_heading_id, self) := generate_heading_id self in
  heading ← getitem "heading" (sub_heading subchapter);
  let outline := (str_of_nat chapter_num ++ "." ++ str_of_nat sub_num)%string in
  let subchapter_heading :=
    heading_item self subchapter_heading_id heading
      ("<h3>" ++ heading ++ "</h3>") "95.0" (Some outline)
      (Some [has_parent parent_heading_id "Links to parent chapter"]) in
  let items := [subchapter_heading] in
  items ←
    match sub_workitems subchapter with
    | Some workitems =>
        append_requirements self subchapter_heading_id outline workitems items
    | None => mret items
    end;
  mret (items, self).

(** [process_chapter] *)
Definition process_chapter (self : converter) (chapter : chapter)
    (chapter_num : nat) (parent_id : option string)
  : result (list flat_item * converter) :=
  let '(chapter_heading_id, self) := generate_heading_id self in
  heading ← getitem "heading" (ch_heading chapter);
  let chapter_heading :=
    heading_item self chapter_heading_id heading
      ("<h2>" ++ heading ++ "</h2><p>" ++ default "" (ch_description chapter) ++ "</p>")
      "100.0" (Some (str_of_nat chapter_num))
      (if truthy parent_id
       then Some [has_parent (default "" parent_id) "Links to document root"]
       else None) in
  let items := [chapter_heading] in
  items ←
    match ch_workitems chapter with
    | Some ((_ :: _) as workitems) =>
        append_requirements self chapter_heading_id (str_of_nat chapter_num)
          workitems items
    | _ => mret items
    end;
  match ch_subchapters chapter with
  | Some subchapters =>
      for_each
        (fun '(items, self) '(sub_idx, subchapter) =>
           '(sub_items, self) ←
             process_subchapter self subchapter chapter_num sub_idx
               chapter_heading_id;
           mret (items ++ sub_items, self))
        (enumerate 1 subchapters) (items, self)
  | None => mret (items, self)
  end.

Record out_document : Type := {
  od_id : string;
  od_title : string;
  od_type : string;
  od_project : string;
  od_space : string;
  od_version : string;
  od_created : string
}.

Record metadata : Type := {
  total_items : nat;
  total_requirements : nat;
  total_headings : nat;
  conversion_timestamp : string
}.

Record output : Type := {
  out_document_ : out_document;
  out_work_items : list flat_item;
  meta : metadata
}.

(** [len([w for w in work_items if w["type"] == ty])] *)
Definition count_type (ty : string) (l : list flat_item) : nat :=
  length (List.filter (fun w => String.eqb (fi_type w) ty) l).

(** The [try] block of [convert] once the input is loaded and valid, up
    to the object handed to [json.dump]. *)
Definition convert_body (self : converter) (data : brake_data)
  : result (output * converter) :=
  document ← getitem "document" (data_document data);
  let '(root_heading_id, self) := generate_heading_id self in
  title ← getitem "title" (doc_title document);
  version ← getitem "version" (doc_version document);
  created ← getitem "created" (doc_created document);
  let root_heading :=
    heading_item self root_heading_id title
      ("<h1>" ++ title ++ "</h1><p>Version: " ++ version
         ++ "</p><p>Created: " ++ created ++ "</p>")
      "100.0" (Some "1") None in
  let self := set_work_items self (work_items self ++ [root_heading]) in
  chapters_v ← getitem "chapters" (doc_chapters document);
  chapters ← iter_chapters chapters_v;
  self ←
    for_each
      (fun self '(chapter_num, chapter) =>
         '(items, self) ←
           process_chapter self chapter (chapter_num + 1) (Some root_heading_id);
         mret (set_work_items self (work_items self ++ items)))
      (enumerate 1 chapters) self;
  title ← getitem "title" (doc_title document);
  project ← getitem "project" (doc_project document);
  space ← getitem "space" (doc_space document);
  version ← getitem "version" (doc_version document);
  mret ({| out_document_ :=
             {| od_id := document_id self; od_title := title;
                od_type := "Functional Concept"; od_project := project;
                od_space := space; od_version := version;
                od_created := timestamp self |};
           out_work_items := work_items self;
           meta := {| total_items := length (work_items self);
                      total_requirements := count_type "requirement" (work_items self);
                      total_headings := count_type "heading" (work_items self);
                      conversion_timestamp := timestamp self |} |},
        self).

(** [BrakeRequirementsConverter.convert]: [sys.exit(1)] when the file is
    missing, is not JSON or fails validation; any exception of the body
    lands in [except Exception] and exits with status 1 as an
    "Unexpected error". *)
Definition convert (self : converter) (input : input_file brake_data)
  : outcome output :=
  match input with
  | FileMissing => exit1 "Input file not found"
  | InvalidJson => exit1 "Invalid JSON in input file"
  | Json data =>
      match validate_input data with
      | (false, msgs) =>
          {| exit_status := Some 1; errors := msgs; written := None |}
      | (true, _) =>
          match convert_body self data with
          | Ok (output, _) =>
              {| exit_status := None; errors := []; written := Some output |}
          | Raise e => exit1 ("Unexpected error: " ++ str_of_exn e)
          end
      end
  end.

End Synthetic.

(** ** archive_scripts/convert_brake_requirements_to_polarion_no_headings.py *)
Module NoHeadings.

(** The default of [self.heading_ids], in the order of the literal. *)
Definition default_heading_ids : odict string :=
  [("root", "Python/FCTS-ROOT");
   ("1. Introduction and Scope", "Python/FCTS-INTRO");
   ("2. System Overview and Architecture", "Python/FCTS-ARCH");
   ("3. Functional Requirements", "Python/FCTS-FUNC");
   ("3.1 Primary Brake Functions", "Python/FCTS-FUNC-PRIM");
   ("3.2 Advanced Brake Functions", "Python/FCTS-FUNC-ADV");
   ("4. Performance Requirements", "Python/FCTS-PERF");
   ("4.1 Stopping Performance", "Python/FCTS-PERF-STOP");
   ("4.2 Response Time Performance", "Python/FCTS-PERF-RESP");
   ("4.3 Durability Performance", "Python/FCTS-PERF-DUR");
   ("5. Safety Requirements", "Python/FCTS-SAFE");
   ("5.1 System Redundancy", "Python/FCTS-SAFE-RED");
   ("5.2 Monitoring and Warnings", "Python/FCTS-SAFE-MON");
   ("6. Interface Requirements", "Python/FCTS-INTF");
   ("6.1 System Communication", "Python/FCTS-INTF-COMM");
   ("6.2 Control System Integration", "Python/FCTS-INTF-CTRL");
   ("6.3 Sensor Integration", "Python/FCTS-INTF-SENS");
   ("7. Environmental Requirements", "Python/FCTS-ENV");
   ("7.1 Temperature and Climate", "Python/FCTS-ENV-TEMP");
   ("7.2 Corrosion and Protection", "Python/FCTS-ENV-CORR");
   ("7.3 Mechanical Stress", "Python/FCTS-ENV-MECH");
   ("8. Maintenance and Serviceability", "Python/FCTS-MAINT");
   ("8.1 Wear Monitoring", "Python/FCTS-MAINT-WEAR");
   ("8.2 Service Intervals", "Python/FCTS-MAINT-SERV");
   ("8.3 Diagnostics and Accessibility", "Python/FCTS-MAINT-DIAG");
   ("9. Regulatory Compliance", "Python/FCTS-REG");
   ("9.1 International Standards", "Python/FCTS-REG-INT");
   ("9.2 Safety Standards", "Python/FCTS-REG-SAFE");
   ("9.3 Environmental Standards", "Python/FCTS-REG-ENV");
   ("10. Verification and Validation", "Python/FCTS-TEST");
   ("10.1 Performance Testing", "Python/FCTS-TEST-PERF");
   ("10.2 Durability Testing", "Python/FCTS-TEST-DUR");
   ("10.3 Environmental Testing", "Python/FCTS-TEST-ENV");
   ("10.4 System Testing", "Python/FCTS-TEST-SYS")].

Record converter : Type := {
  timestamp : string;
  document_id : string;
  heading_ids : odict string;
  work_items : list flat_item
}.

(** [__init__]; [custom_map] is the content of the heading-map file when
    one is given, exists and loads ([load_heading_map]). *)
Definition new_converter (now : string) (custom_map : option (odict string))
  : converter :=
  {| timestamp := now;
     document_id := "Python/_default/Functional Concept - Brake System";
     heading_ids :=
       match custom_map with
       | Some m => odict_update default_heading_ids m
       | None => default_heading_ids
       end;
     work_items := [] |}.

Definition set_work_items (self : converter) (l : list flat_item) : converter :=
  {| timestamp := timestamp self; document_id := document_id self;
     heading_ids := heading_ids self; work_items := l |}.

Definition unknown_heading_id : string := "Python/FCTS-UNKNOWN".

(** [get_heading_id] (the warning it prints on the fallback is not
    modelled). *)
Definition get_heading_id (self : converter) (heading_title : string) : string :=
  match odict_get (heading_ids self) heading_title with
  | Some id => id
  | None =>
      let cleaned_title := strip_outline heading_title in
      match List.find (fun kv => str_in cleaned_title (fst kv)) (heading_ids self) with
      | Some (_, value) => value
      | None => unknown_heading_id
      end
  end.

(** [create_requirement_workitem] *)
Definition create_requirement_workitem (self : converter) (req : requirement)
    (parent_heading_title outline_number : string) : result flat_item :=
  let parent_heading_id := get_heading_id self parent_heading_title in
  flat_requirement (document_id self) req
    {| target_id := parent_heading_id;
       role := "has_parent";
       link_description := "Links to " ++ parent_heading_title |}
    outline_number.

Definition append_requirements (self : converter) (parent_title prefix : string)
    (workitems : list requirement) (items : list flat_item)
  : result (list flat_item) :=
  for_each
    (fun items '(idx, workitem) =>
       let outline := (prefix ++ "." ++ str_of_nat idx)%string in
       w ← create_requirement_workitem self workitem parent_title outline;
       mret (items ++ [w]))
    (enumerate 1 workitems) items.

(** [process_subchapter] *)
Definition process_subchapter (self : converter) (subchapter : subchapter)
    (chapter_num sub_num : nat) : result (list flat_item) :=
  subchapter_title ← getitem "heading" (sub_heading subchapter);
  match sub_workitems subchapter with
  | Some workitems =>
      append_requirements self subchapter_title
        (str_of_nat chapter_num ++ "." ++ str_of_nat sub_num) workitems []
  | None => mret []
  end.

(** [process_chapter] *)
Definition process_chapter (self : converter) (chapter : chapter)
    (chapter_num : nat) : result (list flat_item) :=
  chapter_title ← getitem "heading" (ch_heading chapter);
  items ←
    match ch_workitems chapter with
    | Some ((_ :: _) as workitems) =>
        append_requirements self chapter_title (str_of_nat chapter_num)
          workitems []
    | _ => mret []
    end;
  match ch_subchapters chapter with
  | Some subchapters =>
      for_each
        (fun items '(sub_idx, subchapter) =>
           sub_items ← process_subchapter self subchapter chapter_num sub_idx;
           mret (items ++ sub_items))
        (enumerate 1 subchapters) items
  | None => mret items
  end.

Record out_document : Type := {
  od_id : string;
  od_title : string;
  od_type : string;
  od_project : string;
  od_space : string;
  od_version : string;
  od_created : string
}.

Record metadata : Type := {
  total_items : nat;
  total_requirements : nat;
  conversion_timestamp : string;
  note : string
}.

Record output : Type := {
  out_document_ : out_document;
  out_work_items : list flat_item;
  meta : metadata
}.

(** The loop of [convert] over [enumerate(document["chapters"], 1)]. *)
Definition process_chapters (self : converter) (chapters : list chapter)
  : result converter :=
  for_each
    (fun self '(chapter_num, chapter) =>
       items ← process_chapter self chapter chapter_num;
       mret (set_work_items self (work_items self ++ items)))
    (enumerate 1 chapters) self.

(** The [try] block of [convert] once the input is loaded and valid. *)
Definition convert_body (self : converter) (data : brake_data)
  : result (output * converter) :=
  document ← getitem "document" (data_document data);
  chapters_v ← getitem "chapters" (doc_chapters document);
  chapters ← iter_chapters chapters_v;
  self ← process_chapters self chapters;
  title ← getitem "title" (doc_title document);
  project ← getitem "project" (doc_project document);
  space ← getitem "space" (doc_space document);
  version ← getitem "version" (doc_version document);
  mret ({| out_document_ :=
             {| od_id := document_id self; od_title := title;
                od_type := "Functional Concept"; od_project := project;
                od_space := space; od_version := version;
                od_created := timestamp self |};
           out_work_items := work_items self;
           meta := {| total_items := length (work_items self);
                      total_requirements :=
                        length (List.filter
                                  (fun w => String.eqb (fi_type w) "requirement")
                                  (work_items self));
                      conversion_timestamp := timestamp self;
                      note := "Work items only - headings must exist in Polarion document" |} |},
        self).

(** [BrakeRequirementsConverter.convert] *)
Definition convert (self : converter) (input : input_file brake_data)
  : outcome output :=
  match input with
  | FileMissing => exit1 "Input file not found"
  | InvalidJson => exit1 "Invalid JSON in input file"
  | Json data =>
      match validate_input data with
      | (false, msgs) =>
          {| exit_status := Some 1; errors := msgs; written := None |}
      | (true, _) =>
          match convert_body self data with
          | Ok (output, _) =>
              {| exit_status := None; errors := []; written := Some output |}
          | Raise e => exit1 ("Unexpected error: " ++ str_of_exn e)
          end
      end
  end.

End NoHeadings.

(** ** Existing remote work items (individual and exact converters)

    [load_project_analysis] fills [self.existing_workitems], keyed by
    work-item ID in the order of the analysed document. *)

Record existing_item : Type := {
  ex_type : option string;
  ex_title : string
}.

(** [for wid in workitem_ids: if wid in self.existing_workitems: return wid] *)
Definition first_present (existing : odict existing_item) (ids : list string)
  : option string :=
  List.find (odict_mem existing) ids.

(** [self.existing_workitems.get(id, {}).get('title', fallback)] *)
Definition existing_title (existing : odict existing_item) (id fallback : string)
  : string :=
  match odict_get existing id with
  | Some it => ex_title it
  | None => fallback
  end.

(** ** archive_scripts/convert_brake_to_polarion_individual.py *)
Module Individual.

Record converter : Type := {
  timestamp : string;
  document_id : string;
  existing_workitems : odict existing_item
}.

(** One tuple of [extract_requirements_with_context]. *)
Definition context : Type := requirement * string * option string.

(** [extract_requirements_with_context] *)
Definition extract_requirements_with_context (brake_data : brake_data)
  : result (list context) :=
  let document := default empty_document (data_document brake_data) in
  chapters ← iter_chapters (default (ChaptersList []) (doc_chapters document));
  for_each
    (fun requirements_with_context chapter =>
       let chapter_heading := default "" (ch_heading chapter) in
       let requirements_with_context :=
         match ch_workitems chapter with
         | Some workitems =>
             fold_left (fun acc req => acc ++ [(req, chapter_heading, None)])
               workitems requirements_with_context
         | None => requirements_with_context
         end in
       mret
         (fold_left
            (fun acc subchapter =>
               let subchapter_heading := default "" (sub_heading subchapter) in
               match sub_workitems subchapter with
               | Some workitems =>
                   fold_left
                     (fun acc req =>
                        acc ++ [(req, chapter_heading, Some subchapter_heading)])
                     workitems acc
               | None => acc
               end)
            (default [] (ch_subchapters chapter)) requirements_with_context))
    chapters [].

(** The keyword table of [match_heading_to_workitem], in the order of
    the dict literal. *)
Definition heading_map : odict (list string) :=
  [("functional", ["Python/FCTS-9156"; "Python/FCTS-9157"; "Python/FCTS-9158"]);
   ("primary", ["Python/FCTS-9157"]);
   ("advanced", ["Python/FCTS-9158"]);
   ("brake function", ["Python/FCTS-9156"; "Python/FCTS-9157"]);
   ("performance", ["Python/FCTS-9175"; "Python/FCTS-9178"]);
   ("stopping", ["Python/FCTS-9175"]);
   ("response", ["Python/FCTS-9178"]);
   ("durability", ["Python/FCTS-9175"]);
   ("safety", ["Python/FCTS-9155"]);
   ("redundancy", ["Python/FCTS-9155"]);
   ("monitoring", ["Python/FCTS-9155"]);
   ("warning", ["Python/FCTS-9155"]);
   ("interface", ["Python/FCTS-9173"; "Python/FCTS-9158"]);
   ("communication", ["Python/FCTS-9173"]);
   ("integration", ["Python/FCTS-9158"; "Python/FCTS-9173"]);
   ("sensor", ["Python/FCTS-9173"]);
   ("environmental", ["Python/FCTS-9181"; "Python/FCTS-9178"]);
   ("temperature", ["Python/FCTS-9181"]);
   ("corrosion", ["Python/FCTS-9181"]);
   ("maintenance", ["Python/FCTS-9167"; "Python/FCTS-9168"]);
   ("service", ["Python/FCTS-9167"]);
   ("diagnostic", ["Python/FCTS-9168"]);
   ("regulatory", ["Python/FCTS-9156"; "Python/FCTS-9155"]);
   ("compliance", ["Python/FCTS-9156"]);
   ("standard", ["Python/FCTS-9156"]);
   ("testing", ["Python/FCTS-9159"; "Python/FCTS-9160"; "Python/FCTS-9179"; "Python/FCTS-9180"]);
   ("verification", ["Python/FCTS-9159"; "Python/FCTS-9179"]);
   ("validation", ["Python/FCTS-9160"; "Python/FCTS-9180"]);
   ("test", ["Python/FCTS-9159"; "Python/FCTS-9160"])].

Definition fallback_id : string := "Python/FCTS-9156".

(** [for keyword, workitem_ids in heading_map.items(): if keyword in
    text: for wid in workitem_ids: if wid in existing: return wid];
    [None] when the loop runs to its end. *)
Fixpoint scan_keywords (existing : odict existing_item)
    (table : odict (list string)) (text : string) : option string :=
  match table with
  | [] => None
  | (keyword, workitem_ids) :: table' =>
      if str_in keyword text then
        match first_present existing workitem_ids with
        | Some wid => Some wid
        | None => scan_keywords existing table' text
        end
      else scan_keywords existing table' text
  end.

(** The cleaning of a heading: outline number off, lower case. *)
Definition clean (heading : string) : string := lower (strip_outline heading).

(** [match_heading_to_workitem] *)
Definition match_heading_to_workitem (self : converter) (chapter : string)
    (subchapter : option string) : string :=
  let chapter_clean := clean chapter in
  let subchapter_clean :=
    if truthy subchapter then clean (default "" subchapter) else "" in
  let from_subchapter :=
    if truthy (Some subchapter_clean)
    then scan_keywords (existing_workitems self) heading_map subchapter_clean
    else None in
  match from_subchapter with
  | Some wid => wid
  | None =>
      match scan_keywords (existing_workitems self) heading_map chapter_clean with
      | Some wid => wid
      | None => fallback_id
      end
  end.

Definition test_items : list string :=
  ["Python/FCTS-9159"; "Python/FCTS-9160"; "Python/FCTS-9179"; "Python/FCTS-9180"].

(** [create_workitem_format] *)
Definition create_workitem_format (self : converter) (requirement : requirement)
    (parent_id chapter : string) (subchapter : option string)
  : result linked_item :=
  let link_description :=
    ("Links to " ++ (if truthy subchapter then default "" subchapter else chapter))%string in
  let parent_title :=
    existing_title (existing_workitems self) parent_id "parent requirement" in
  wi ← nested_work_item (timestamp self) (document_id self) requirement;
  let parent_link :=
    {| target_id := parent_id; role := "has_parent";
       link_description := link_description ++ " - " ++ parent_title |} in
  let category := default "" (req_category requirement) in
  let extra :=
    if String.eqb category "Safety" && negb (String.eqb parent_id "Python/FCTS-9155")
    then [ {| target_id := "Python/FCTS-9155"; role := "relates_to";
              link_description := "Related to MCP Safety Goal" |} ]
    else if String.eqb category "Testing" then
      match List.find
              (fun test_id => negb (String.eqb test_id parent_id)
                              && odict_mem (existing_workitems self) test_id)
              test_items with
      | Some test_id =>
          [ {| target_id := test_id; role := "verifies";
               link_description :=
                 "Verifies " ++ existing_title (existing_workitems self) test_id "" |} ]
      | None => []
      end
    else [] in
  mret {| work_item := wi; links := parent_link :: extra; children := [] |}.

(** [convert_requirements]; the progress line reads [req['id']] and
    [req['title']]. *)
Definition convert_requirements (self : converter) (brake_data : brake_data)
  : result (list linked_item) :=
  requirements_with_context ← extract_requirements_with_context brake_data;
  for_each
    (fun output_items '(req, chapter, subchapter) =>
       let parent_id := match_heading_to_workitem self chapter subchapter in
       workitem ← create_workitem_format self req parent_id chapter subchapter;
       _ ← getitem "id" (req_id req);
       _ ← getitem "title" (req_title req);
       mret (output_items ++ [workitem]))
    requirements_with_context [].

Record metadata : Type := {
  total_items : nat;
  meta_document_id : string;
  conversion_timestamp : string;
  note : string
}.

Record output : Type := {
  work_items : list linked_item;
  meta : metadata
}.

(** [run]; [doc_found] says whether [load_project_analysis] found the
    document whose work items fill [existing_workitems]. *)
Definition run (self : converter) (doc_found : bool) (brake_data : brake_data)
  : outcome output :=
  if negb doc_found then exit1 "Could not find document" else
  match convert_requirements self brake_data with
  | Ok output_items =>
      {| exit_status := None;
         errors := [];
         written := Some
           {| work_items := output_items;
              meta := {| total_items := length output_items;
                         meta_document_id := document_id self;
                         conversion_timestamp := timestamp self;
                         note := "Each requirement is an individual work item with parent links" |} |} |}
  | Raise e => exit1 (str_of_exn e)
  end.

End Individual.

(** ** archive_scripts/convert_brake_to_polarion_exact.py *)
Module Exact.

Record converter : Type := {
  timestamp : string;
  document_id : string;
  existing_workitems : odict existing_item
}.

Record rule : Type := {
  keywords : list string;
  preferred : list string
}.

Definition mapping_rules : odict rule :=
  [("functional",
     {| keywords := ["mcp"; "framework"; "integration"; "server"; "composite"];
        preferred := ["Python/FCTS-9156"; "Python/FCTS-9157"; "Python/FCTS-9158"] |});
   ("safety",
     {| keywords := ["safety"; "goal"; "critical"];
        preferred := ["Python/FCTS-9155"] |});
   ("testing",
     {| keywords := ["test"; "validation"; "verification"];
        preferred := ["Python/FCTS-9159"; "Python/FCTS-9160"; "Python/FCTS-9179"; "Python/FCTS-9180"] |});
   ("interface",
     {| keywords := ["interface"; "communication"; "integration"];
        preferred := ["Python/FCTS-9158"; "Python/FCTS-9173"] |});
   ("performance",
     {| keywords := ["performance"; "response"; "efficiency"];
        preferred := ["Python/FCTS-9175"; "Python/FCTS-9178"] |})].

(** [for keyword in rule["keywords"]: if keyword in title: for parent_id
    in rule["preferred"]: if parent_id in existing: return parent_id] *)
Fixpoint scan_rule (existing : odict existing_item) (preferred : list string)
    (kws : list string) (title : string) : option string :=
  match kws with
  | [] => None
  | keyword :: kws' =>
      if str_in keyword title then
        match first_present existing preferred with
        | Some parent_id => Some parent_id
        | None => scan_rule existing preferred kws' title
        end
      else scan_rule existing preferred kws' title
  end.

(** [map_requirement_to_parent] *)
Definition map_requirement_to_parent (self : converter) (requirement : requirement)
  : string :=
  let category := lower (default "" (req_category requirement)) in
  let title := lower (default "" (req_title requirement)) in
  let by_rule :=
    match odict_get mapping_rules category with
    | Some rule =>
        scan_rule (existing_workitems self) (preferred rule) (keywords rule) title
    | None => None
    end in
  match by_rule with
  | Some parent_id => parent_id
  | None =>
      if odict_mem (existing_workitems self) "Python/FCTS-9156"
      then "Python/FCTS-9156"
      else
        match List.find
                (fun kv => bool_decide (ex_type (snd kv) = Some "requirement"))
                (existing_workitems self) with
        | Some (item_id, _) => item_id
        | None => "Python/FCTS-9156"
        end
  end.

(** [create_workitem_exact_format] *)
Definition create_workitem_exact_format (self : converter)
    (requirement : requirement) (parent_id : string) : result work_item_fields :=
  nested_work_item (timestamp self) (document_id self) requirement.

(** [create_links] *)
Definition create_links (self : converter) (requirement : requirement)
    (parent_id : string) : list link :=
  let links :=
    [ {| target_id := parent_id; role := "has_parent";
         link_description :=
           "Links to " ++ existing_title (existing_workitems self) parent_id
                            "parent requirement" |} ] in
  let category := default "" (req_category requirement) in
  if String.eqb category "Safety" then
    links ++ [ {| target_id := "Python/FCTS-9155"; role := "relates_to";
                  link_description := "Related to MCP Safety Goal" |} ]
  else if String.eqb category "Testing" then
    links ++ [ {| target_id := "Python/FCTS-9160"; role := "verifies";
                  link_description := "Verifies MCP Test Case" |} ]
  else links.

(** The object [convert_requirements] returns. *)
Record output : Type := {
  out_work_item : option work_item_fields;
  out_links : list link;
  out_children : list work_item_fields
}.

(** The first loop of [convert_requirements]: [all_requirements]. *)
Definition collect_requirements (chapters : list chapter) : list requirement :=
  fold_left
    (fun all_requirements chapter =>
       let all_requirements :=
         match ch_workitems chapter with
         | Some workitems => all_requirements ++ workitems
         | None => all_requirements
         end in
       fold_left
         (fun all_requirements subchapter =>
            match sub_workitems subchapter with
            | Some workitems => all_requirements ++ workitems
            | None => all_requirements
            end)
         (default [] (ch_subchapters chapter)) all_requirements)
    chapters [].

(** [convert_requirements].  The [categorized] dict the source fills
    between the two steps is never read and is left out. *)
Definition convert_requirements (self : converter) (brake_data : brake_data)
  : result output :=
  let document := default empty_document (data_document brake_data) in
  chapters ← iter_chapters (default (ChaptersList []) (doc_chapters document));
  let all_requirements := collect_requirements chapters in
  match all_requirements with
  | [] => mret {| out_work_item := None; out_links := []; out_children := [] |}
  | first_req :: rest =>
      let parent_id := map_requirement_to_parent self first_req in
      work_item ← create_workitem_exact_format self first_req parent_id;
      let links := create_links self first_req parent_id in
      children ←
        for_each
          (fun children req =>
             let child_parent_id := map_requirement_to_parent self req in
             child_workitem ← create_workitem_exact_format self req child_parent_id;
             mret (children ++ [child_workitem]))
          rest [];
      mret {| out_work_item := Some work_item; out_links := links;
              out_children := children |}
  end.

End Exact.

(** ** Notions used to state the properties *)

(** The chapters a traversal walks: the list under ["chapters"]. *)
Definition chapters_of (data : brake_data) : list chapter :=
  match data_document data with
  | Some doc =>
      match doc_chapters doc with
      | Some (ChaptersList cs) => cs
      | _ => []
      end
  | None => []
  end.

(** The work items of one chapter in reading order: its own list, then
    the list of each subchapter. *)
Definition chapter_requirements (c : chapter) : list requirement :=
  default [] (ch_workitems c)
  ++ concat (map (fun s => default [] (sub_workitems s)) (default [] (ch_subchapters c))).

(** The work items of the whole tree in reading order. *)
Definition requirements_in_order (cs : list chapter) : list requirement :=
  concat (map chapter_requirements cs).

(** The number of work items in the tree, counted list by list. *)
Definition total_workitems (cs : list chapter) : nat :=
  list_sum
    (map (fun c =>
            length (default [] (ch_workitems c))
            + list_sum (map (fun s => length (default [] (sub_workitems s)))
                          (default [] (ch_subchapters c))))
       cs).

(** A requirement that carries the keys the headings converter reads
    with [req[...]]. *)
Definition printable (r : requirement) : Prop :=
  is_Some (req_id r) /\ is_Some (req_title r) /\ is_Some (req_description r).

(** A requirement that carries all five keys the flat converters read. *)
Definition complete (r : requirement) : Prop :=
  printable r /\ is_Some (req_category r) /\ is_Some (req_priority r).

(** Every chapter and subchapter has a ["heading"]. *)
Definition headed (cs : list chapter) : Prop :=
  Forall (fun c => is_Some (ch_heading c)
                   /\ Forall (fun s => is_Some (sub_heading s))
                        (default [] (ch_subchapters c))) cs.

(** The first entry of a keyword table whose keyword occurs in [text]. *)
Definition first_keyword {V} (table : odict V) (text : string) : option (string * V) :=
  List.find (fun kv => str_in (fst kv) text) table.

(** An item with exactly one link, of role ["has_parent"], to [target],
    and no children. *)
Definition linked_to (target : string) (it : linked_item) : Prop :=
  (exists l, links it = [l] /\ role l = "has_parent" /\ target_id l = target)
  /\ children it = [].

Definition has_one_parent_link (it : linked_item) : Prop :=
  exists target, linked_to target it.

(** The parent heading (ID and title) that the headings converter hands
    to a chapter's own work items. *)
Definition chapter_parent (heading_map : gmap string string) (c : chapter)
  : string * string :=
  let id := default "" (ch_heading_id c) in
  (id, default (default "" (ch_heading c)) (heading_map !! id)).

(** The parent heading a subchapter hands to its work items. *)
Definition subchapter_parent (heading_map : gmap string string) (s : subchapter)
  : string * string :=
  let id := default "" (sub_heading_id s) in
  (id, default (default "" (sub_heading s)) (heading_map !! id)).

(** [it] is the item the headings converter builds for [r] under the
    parent [p]. *)
Definition built_under (self : Headings.converter) (p : string * string)
    (r : requirement) (it : linked_item) : Prop :=
  Headings.create_workitem_format self r (fst p) (snd p) = Ok it.

(** [it] is the item the no-headings converter builds for [r] under some
    parent title and outline number. *)
Definition flat_built (self : NoHeadings.converter) (r : requirement)
    (it : flat_item) : Prop :=
  exists title outline,
    NoHeadings.create_requirement_workitem self r title outline = Ok it.

(** [it] is the item the headings converter builds for [r] under some
    parent heading. *)
Definition nested_built (self : Headings.converter) (r : requirement)
    (it : linked_item) : Prop :=
  exists parent, built_under self parent r it.

(** The value under ["chapters"], when there is one, is a list. *)
Definition walkable (data : brake_data) : Prop :=
  forall doc, data_document data = Some doc -> doc_chapters doc <> Some ChaptersScalar.

(** A flat item is a requirement or a heading. *)
Definition typed (it : flat_item) : Prop :=
  fi_type it = "requirement" \/ fi_type it = "heading".

(** A requirement that carries the two keys the nested work item reads
    with [requirement[...]]. *)
Definition described (r : requirement) : Prop :=
  is_Some (req_title r) /\ is_Some (req_description r).

(** [c] is the work item the exact converter builds for [r]. *)
Definition exact_built (self : Exact.converter) (r : requirement)
    (c : work_item_fields) : Prop :=
  Exact.create_workitem_exact_format self r (Exact.map_requirement_to_parent self r)
  = Ok c.

(** Sample inputs used to exercise the statements. *)
Definition sample_requirement (id category priority : string) : requirement :=
  {| req_id := Some id; req_title := Some ("Title of " ++ id)%string;
     req_description := Some "The brake shall hold.";
     req_category := Some category; req_priority := Some priority |}.

Definition sample_subchapter : subchapter :=
  {| sub_heading := Some "3.1 Primary Brake Functions";
     sub_heading_id := None;
     sub_outlineNumber := Some "3.1";
     sub_workitems := Some [sample_requirement "BR-2" "Safety" "High";
                            sample_requirement "BR-3" "Testing" "Low"] |}.

Definition sample_chapter : chapter :=
  {| ch_heading := Some "3. Functional Requirements";
     ch_heading_id := Some "Python/FCTS-1";
     ch_outlineNumber := Some "3";
     ch_description := None;
     ch_workitems := Some [sample_requirement "BR-1" "Safety" "Critical"];
     ch_subchapters := Some [sample_subchapter] |}.

Definition sample_document (chapters : option chapters_value)
    (version : option string) : document :=
  {| doc_id := Some "DOC-1"; doc_title := Some "Brake System";
     doc_project := Some "Python"; doc_space := Some "_default";
     doc_version := version; doc_created := Some "2025-01-01";
     doc_chapters := chapters |}.

Definition sample_data : brake_data :=
  {| data_document :=
       Some (sample_document (Some (ChaptersList [sample_chapter])) (Some "1.0")) |}.

(** A valid-looking input without ["version"]. *)
Definition data_without_version : brake_data :=
  {| data_document := Some (sample_document (Some (ChaptersList [])) None) |}.

Definition sample_headings : Headings.converter :=
  {| Headings.timestamp := "20250101_000000";
     Headings.document_id := "Python/_default/Functional Concept - Template" |}.

Definition sample_existing : odict existing_item :=
  [("Python/FCTS-9157", {| ex_type := Some "requirement"; ex_title := "Proto-Server" |});
   ("Python/FCTS-9159", {| ex_type := Some "testcase"; ex_title := "MCP Test" |})].

Definition sample_individual : Individual.converter :=
  {| Individual.timestamp := "20250101_000000";
     Individual.document_id := "Python/_default/Functional Concept - Template";
     Individual.existing_workitems := sample_existing |}.

Definition sample_exact : Exact.converter :=
  {| Exact.timestamp := "20250101_000000";
     Exact.document_id := "Python/_default/Functional Concept - Template";
     Exact.existing_workitems := sample_existing |}.

(** ** Further notions: the rest of the converters *)

(** The tuples [extract_requirements_with_context] is expected to yield
    for one chapter: its own work items under the chapter heading alone,
    then each subchapter's under both headings. *)
Definition chapter_contexts (c : chapter) : list Individual.context :=
  let chapter_heading := default "" (ch_heading c) in
  map (fun r => (r, chapter_heading, None)) (default [] (ch_workitems c))
  ++ concat
       (map (fun s =>
               map (fun r => (r, chapter_heading, Some (default "" (sub_heading s))))
                 (default [] (sub_workitems s)))
          (default [] (ch_subchapters c))).

Definition contexts_in_order (cs : list chapter) : list Individual.context :=
  concat (map chapter_contexts cs).

(** [it] is the item the individual converter builds for the tuple
    [ctx], under the parent its headings are matched to. *)
Definition individual_built (self : Individual.converter)
    (ctx : Individual.context) (it : linked_item) : Prop :=
  let '(req, chapter, subchapter) := ctx in
  Individual.create_workitem_format self req
    (Individual.match_heading_to_workitem self chapter subchapter)
    chapter subchapter = Ok it.

(** The number of subchapters in the tree. *)
Definition total_subchapters (cs : list chapter) : nat :=
  list_sum (map (fun c => length (default [] (ch_subchapters c))) cs).

(** The heading ID that [generate_heading_id] formats for counter [k]. *)
Definition head_id (k : nat) : string := "Python/BR-HEAD-" ++ str_of_nat k.

(** The IDs of the heading items of a list, in order. *)
Definition heading_ids_of (items : list flat_item) : list string :=
  map fi_id (List.filter (fun w => String.eqb (fi_type w) "heading") items).

(** Every link of every item points to a heading that comes earlier in
    the list, or to one of the IDs in [known]. *)
Fixpoint well_linked (known : list string) (items : list flat_item) : Prop :=
  match items with
  | [] => True
  | it :: rest =>
      Forall (fun l => target_id l ∈ known) (default [] (fi_links it))
      /\ well_linked
           (if String.eqb (fi_type it) "heading" then fi_id it :: known else known)
           rest
  end.

(** What a run of consecutive items of the synthetic converter looks
    like when the heading counter stood at [c0] before it: the headings
    are numbered [c0 + 1 ..], there are [nreq] requirements and [nhead]
    headings, and links go to [parents] or back into the run. *)
Definition block (c0 : nat) (parents : list string) (nreq nhead : nat)
    (items : list flat_item) : Prop :=
  heading_ids_of items = map head_id (seq (c0 + 1) nhead)
  /\ Synthetic.count_type "requirement" items = nreq
  /\ Forall typed items
  /\ (forall known, (forall p, p ∈ parents -> p ∈ known) -> well_linked known items).

(** Python truthiness of the optional [parent_id] as a list of parents. *)
Definition parents_of (parent_id : option string) : list string :=
  if truthy parent_id then [default "" parent_id] else [].

(** ** The scripts' own checks of their output

    [validate_output_format] of the headings and of the individual
    converter print what they find; the counters they print are modelled,
    the wording is not. *)
Module Checks.

(** The inner loop of the headings check: [for link in item.get("links",
    []): if link.get("role") == "has_parent": has_parent = True; break]. *)
Definition has_parent (item : linked_item) : bool :=
  existsb (fun link => String.eqb (role link) "has_parent") (links item).






End Checks.

(** The outline numbers the no-headings converter is expected to give
    the items of chapter number [cn]: ["cn.i"] for its own [i]-th work
    item, ["cn.j.i"] for the [i]-th work item of its [j]-th subchapter,
    counting from 1. *)
Definition own_outline (cn i : nat) : string :=
  str_of_nat cn ++ "." ++ str_of_nat i.

Definition sub_outline (cn j i : nat) : string :=
  (str_of_nat cn ++ "." ++ str_of_nat j) ++ "." ++ str_of_nat i.

Definition expected_outlines (cn : nat) (c : chapter) : list (option string) :=
  map (fun i => Some (own_outline cn i)) (seq 1 (length (default [] (ch_workitems c))))
  ++ concat
       (map (fun js =>
               map (fun i => Some (sub_outline cn (fst js) i))
                 (seq 1 (length (default [] (sub_workitems (snd js))))))
          (enumerate 1 (default [] (ch_subchapters c)))).

(** * Properties *)

(** ** Sanity checks of the string primitives *)

Example strip_outline_chapter :
  strip_outline "3. Functional Requirements" = "Functional Requirements".
Proof. reflexivity. Qed.

Example strip_outline_subchapter :
  strip_outline "10.4 System Testing" = "System Testing".
Proof. reflexivity. Qed.

Example strip_outline_three_levels : strip_outline "3.1.2 Deep" = "3.1.2 Deep".
Proof. reflexivity. Qed.

Example strip_outline_no_number : strip_outline "Overview" = "Overview".
Proof. reflexivity. Qed.

Example strip_outline_only_number : strip_outline "7 " = "".
Proof. reflexivity. Qed.

Example str_in_examples :
  str_in "test" "system testing" = true /\ str_in "" "" = true
  /\ str_in "a" "" = false /\ str_in "brake" "Brake" = false.
Proof. repeat split. Qed.

Example lower_example : lower "3.1 Primary BRAKE" = "3.1 primary brake".
Proof. reflexivity. Qed.

Example str_of_nat_examples : str_of_nat 0 = "0" /\ str_of_nat 1001 = "1001".
Proof. split; reflexivity. Qed.

(** ** The result monad and loops that append *)

Lemma bind_Ok_inv {A B} (m : result A) (f : A -> result B) (b : B) :
  m ≫= f = Ok b -> exists a, m = Ok a /\ f a = Ok b.
Proof. destruct m as [a|e]; simpl; [by exists a|discriminate]. Qed.

Lemma bind_Ok {A B} (m : result A) (f : A -> result B) (a : A) :
  m = Ok a -> m ≫= f = f a.
Proof. by intros ->. Qed.

Section Loops.
Context {A B : Type}.

(** A loop whose body appends some outputs for each element appends,
    in order, the outputs of all elements. *)
Lemma for_each_chunks (R : A -> list B -> Prop)
    (body : list B -> A -> result (list B)) :
  (forall acc x acc', body acc x = Ok acc' -> exists ys, acc' = acc ++ ys /\ R x ys) ->
  forall l acc out, for_each body l acc = Ok out ->
    exists yss, out = acc ++ concat yss /\ Forall2 R l yss.
Proof.
  intros Hbody l. induction l as [|x l IH]; intros acc out H; simpl in H.
  - injection H as <-. exists []. simpl. rewrite app_nil_r. split; [done|constructor].
  - destruct (body acc x) as [acc'|e] eqn:Hx; [|discriminate].
    destruct (Hbody _ _ _ Hx) as (ys & -> & HR).
    destruct (IH _ _ H) as (yss & -> & HF).
    exists (ys :: yss). simpl. rewrite app_assoc. split; [done|by constructor].
Qed.

(** The same for a body that appends exactly one output. *)
Lemma for_each_singles (R : A -> B -> Prop)
    (body : list B -> A -> result (list B)) :
  (forall acc x acc', body acc x = Ok acc' -> exists y, acc' = acc ++ [y] /\ R x y) ->
  forall l acc out, for_each body l acc = Ok out ->
    exists ys, out = acc ++ ys /\ Forall2 R l ys.
Proof.
  intros Hbody l. induction l as [|x l IH]; intros acc out H; simpl in H.
  - injection H as <-. exists []. rewrite app_nil_r. split; [done|constructor].
  - destruct (body acc x) as [acc'|e] eqn:Hx; [|discriminate].
    destruct (Hbody _ _ _ Hx) as (y & -> & HR).
    destruct (IH _ _ H) as (ys & -> & HF).
    exists (y :: ys). rewrite <- app_assoc. split; [done|by constructor].
Qed.

(** A loop returns when its body returns on every element. *)
Lemma for_each_returns {S} (P : A -> Prop) (body : S -> A -> result S) :
  (forall acc x, P x -> exists acc', body acc x = Ok acc') ->
  forall l acc, Forall P l -> exists out, for_each body l acc = Ok out.
Proof.
  intros Hbody l. induction l as [|x l IH]; intros acc HP; simpl.
  - by eexists.
  - inversion HP as [|? ? Hx Hl]; subst.
    destruct (Hbody acc x Hx) as [acc' ->]. by apply IH.
Qed.

(** A property of the accumulator that every round keeps is kept by
    the loop. *)
Lemma for_each_invariant {S} (I : S -> Prop) (body : S -> A -> result S) :
  (forall acc x acc', I acc -> body acc x = Ok acc' -> I acc') ->
  forall l acc out, I acc -> for_each body l acc = Ok out -> I out.
Proof.
  intros Hbody l. induction l as [|x l IH]; intros acc out HI H; simpl in H.
  - by injection H as <-.
  - destruct (body acc x) as [acc'|] eqn:Hx; [|discriminate]. eauto.
Qed.

Lemma Forall2_concat (R : A -> B -> Prop) (xss : list (list A)) (yss : list (list B)) :
  Forall2 (Forall2 R) xss yss -> Forall2 R (concat xss) (concat yss).
Proof.
  induction 1; simpl; [constructor|]. by apply Forall2_app.
Qed.

Lemma Forall2_map_chunks (R : A -> B -> Prop) {C} (g : C -> list A)
    (l : list C) (yss : list (list B)) :
  Forall2 (fun x ys => Forall2 R (g x) ys) l yss ->
  Forall2 R (concat (map g l)) (concat yss).
Proof.
  induction 1; simpl; [constructor|]. by apply Forall2_app.
Qed.

Lemma Forall_concat_chunks (P : B -> Prop) {C} (Q : C -> list B -> Prop)
    (l : list C) (yss : list (list B)) :
  (forall x ys, Q x ys -> Forall P ys) ->
  Forall2 Q l yss -> Forall P (concat yss).
Proof.
  intros HQ. induction 1; simpl; [constructor|].
  apply Forall_app. eauto.
Qed.

End Loops.

Lemma Forall_concat_map {A C} (P : A -> Prop) (g : C -> list A) (l : list C) :
  Forall P (concat (map g l)) -> Forall (fun x => Forall P (g x)) l.
Proof.
  induction l as [|x l IH]; simpl; [constructor|].
  intros [? ?]%Forall_app. constructor; auto.
Qed.

Lemma enumerate_as_zip {A} (l : list A) (start : nat) :
  map snd (enumerate start l) = l.
Proof.
  revert start. induction l as [|x l IH]; intros start; simpl; [done|].
  by rewrite IH.
Qed.

Lemma Forall2_enumerate {A B} (R : A -> B -> Prop) (l : list A) (ys : list B) start :
  Forall2 (fun ix y => R (snd ix) y) (enumerate start l) ys -> Forall2 R l ys.
Proof.
  revert start ys. induction l as [|x l IH]; intros start ys H; simpl in H.
  - inversion H. constructor.
  - inversion H; subst. constructor; [done|]. eapply IH. eassumption.
Qed.

Lemma Forall_enumerate {A} (P : A -> Prop) (l : list A) start :
  Forall P l -> Forall (fun ix => P (snd ix)) (enumerate start l).
Proof.
  revert start. induction l as [|x l IH]; intros start H; simpl; [constructor|].
  inversion H; subst. constructor; [done|]. by apply IH.
Qed.

Lemma length_requirements_in_order (cs : list chapter) :
  length (requirements_in_order cs) = total_workitems cs.
Proof.
  unfold requirements_in_order, total_workitems.
  induction cs as [|c cs IH]; simpl; [done|].
  rewrite length_app, IH. f_equal.
  unfold chapter_requirements. rewrite length_app. f_equal.
  induction (default [] (ch_subchapters c)) as [|s ss IHs]; simpl; [done|].
  by rewrite length_app, IHs.
Qed.

(** ** The static lookup tables *)

Ltac by_string_cases s :=
  repeat match goal with
         | |- context [String.eqb ?k s] =>
             destruct (String.eqb_spec k s) as [<-|?]; [reflexivity|]
         end;
  repeat case_decide; first [reflexivity | congruence].

(** C5. [map_priority] is a total lookup: "100.0" for "Critical",
    "90.0" for "High", "50.0" for "Medium", "30.0" for "Low", and "50.0"
    for every other string. *)
Theorem C5_map_priority_total (priority : string) :
  map_priority priority =
    if decide (priority = "Critical") then "100.0"
    else if decide (priority = "High") then "90.0"
    else if decide (priority = "Medium") then "50.0"
    else if decide (priority = "Low") then "30.0"
    else "50.0".
Proof.
  unfold map_priority, flat_priority_map. cbn [odict_get].
  by_string_cases priority.
Qed.

(** C6. [map_status] is a static lookup: "approved" for "Regulatory",
    "in_review" for "Safety", and "draft" for every other category,
    listed in the table or not. *)
Theorem C6_map_status_total (category : string) :
  map_status category =
    if decide (category = "Regulatory") then "approved"
    else if decide (category = "Safety") then "in_review"
    else "draft".
Proof.
  unfold map_status, status_map. cbn [odict_get].
  by_string_cases category.
Qed.

(** ** Severity *)

Lemma nested_work_item_severity ts d r w :
  nested_work_item ts d r = Ok w ->
  wi_severity w =
    default "must_have"
      (odict_get (severity_map r) (default "Functional" (req_category r))).
Proof.
  unfold nested_work_item. destruct (req_title r), (req_description r); simpl;
    intros H; try discriminate. by injection H as <-.
Qed.






(** ** Input validation *)


(** A rejected input ends both flat converters with status 1, the
    validation message, and no output file. *)
Lemma validation_failure_exits (s : Synthetic.converter) (n : NoHeadings.converter)
    (data : brake_data) :
  fst (validate_input data) = false ->
  Synthetic.convert s (Json data)
    = {| exit_status := Some 1; errors := snd (validate_input data); written := None |}
  /\ NoHeadings.convert n (Json data)
    = {| exit_status := Some 1; errors := snd (validate_input data); written := None |}.
Proof.
  unfold Synthetic.convert, NoHeadings.convert.
  destruct (validate_input data) as [[|] msgs]; simpl; [discriminate|done].
Qed.

(** Whatever happens after validation, a run that does not return
    normally writes nothing and exits with status 1. *)
Lemma synthetic_convert_outcome (s : Synthetic.converter) (input : input_file brake_data) :
  (exit_status (Synthetic.convert s input) = None
   /\ is_Some (written (Synthetic.convert s input)))
  \/ (exit_status (Synthetic.convert s input) = Some 1
      /\ written (Synthetic.convert s input) = None).
Proof.
  unfold Synthetic.convert. destruct input as [| |data]; simpl; auto.
  destruct (validate_input data) as [[|] msgs]; simpl; auto.
  destruct (Synthetic.convert_body s data) as [[o ?]|e]; simpl; eauto.
Qed.

(** C3, the input that slips through. A document with all five validated
    keys and no ["version"] passes [validate_input]; the conversion then
    reads [document['version']], and both flat converters end in the
    handler for unexpected errors with a [KeyError]. *)
Theorem C3_missing_version_passes_validation (now : string) :
  validate_input data_without_version = (true, [])
  /\ Synthetic.convert (Synthetic.new_converter now) (Json data_without_version)
     = exit1 "Unexpected error: 'version'"
  /\ NoHeadings.convert (NoHeadings.new_converter now None) (Json data_without_version)
     = exit1 "Unexpected error: 'version'".
Proof. repeat split. Qed.

(** ** The headings converter: what each loop appends *)

Section HeadingsLoops.
Variable self : Headings.converter.
Variable heading_map : gmap string string.

Abbreviation chapter_parent := (chapter_parent heading_map).
Abbreviation subchapter_parent := (subchapter_parent heading_map).
Abbreviation built_under := (built_under self).

Lemma emit_appends hid t acc r acc' :
  Headings.emit self hid t acc r = Ok acc' ->
  exists it, acc' = acc ++ [it] /\ built_under (hid, t) r it.
Proof.
  unfold Headings.emit, built_under. simpl.
  destruct (Headings.create_workitem_format self r hid t) as [it|]; simpl; [|discriminate].
  destruct (req_id r); simpl; [|discriminate].
  destruct (req_title r); simpl; [|discriminate].
  intros [= <-]. by exists it.
Qed.

Lemma emit_returns hid t acc r :
  printable r -> exists acc', Headings.emit self hid t acc r = Ok acc'.
Proof.
  intros ([id Hid] & [ti Ht] & [de Hd]).
  unfold Headings.emit, Headings.create_workitem_format, nested_work_item.
  rewrite Hid, Ht, Hd. simpl. by eexists.
Qed.

Lemma emit_loop_appends hid t ws acc out :
  for_each (Headings.emit self hid t) ws acc = Ok out ->
  exists items, out = acc ++ items /\ Forall2 (built_under (hid, t)) ws items.
Proof.
  apply for_each_singles. intros ? ? ?. apply emit_appends.
Qed.

Lemma subchapter_body_appends acc s acc' :
  Headings.process_subchapter_body self heading_map acc s = Ok acc' ->
  exists items,
    acc' = acc ++ items
    /\ Forall2 (built_under (subchapter_parent s)) (default [] (sub_workitems s)) items.
Proof.
  unfold Headings.process_subchapter_body, subchapter_parent.
  destruct (sub_workitems s) as [[|w ws]|].
  - intros [= <-]. exists []. rewrite app_nil_r. split; [done|constructor].
  - intros H. exact (emit_loop_appends _ _ (w :: ws) _ _ H).
  - intros [= <-]. exists []. rewrite app_nil_r. split; [done|constructor].
Qed.

Lemma subchapter_body_returns acc s :
  Forall printable (default [] (sub_workitems s)) ->
  exists acc', Headings.process_subchapter_body self heading_map acc s = Ok acc'.
Proof.
  unfold Headings.process_subchapter_body.
  destruct (sub_workitems s) as [[|w ws]|]; intros H; try (by eexists).
  eapply for_each_returns; [|exact H]. intros ? ?. apply emit_returns.
Qed.

(** One chapter appends the items of its own list, then those of each
    subchapter. *)
Lemma chapter_body_appends acc c acc' :
  Headings.process_chapter_body self heading_map acc c = Ok acc' ->
  exists own subs,
    acc' = acc ++ own ++ concat subs
    /\ Forall2 (built_under (chapter_parent c)) (default [] (ch_workitems c)) own
    /\ Forall2 (fun s items =>
                  Forall2 (built_under (subchapter_parent s))
                    (default [] (sub_workitems s)) items)
         (default [] (ch_subchapters c)) subs.
Proof.
  unfold Headings.process_chapter_body. intros H.
  apply bind_Ok_inv in H as (mid & Hm & Hsubs).
  assert (exists own,
             mid = acc ++ own
             /\ Forall2 (built_under (chapter_parent c)) (default [] (ch_workitems c)) own)
    as (own & -> & Hown).
  { destruct (ch_workitems c) as [[|w ws]|].
    - injection Hm as <-. exists []. rewrite app_nil_r. split; [done|constructor].
    - exact (emit_loop_appends _ _ (w :: ws) _ _ Hm).
    - injection Hm as <-. exists []. rewrite app_nil_r. split; [done|constructor]. }
  destruct (for_each_chunks _ _ subchapter_body_appends _ _ _ Hsubs)
    as (subs & -> & HF).
  exists own, subs. rewrite <- app_assoc. by repeat split.
Qed.

Lemma chapter_body_returns acc c :
  Forall printable (chapter_requirements c) ->
  exists acc', Headings.process_chapter_body self heading_map acc c = Ok acc'.
Proof.
  unfold chapter_requirements, Headings.process_chapter_body.
  intros [Hown Hsubs]%Forall_app.
  assert (exists mid,
             match ch_workitems c with
             | Some ((_ :: _) as workitems) =>
                 for_each
                   (Headings.emit self (default "" (ch_heading_id c))
                      (default (default "" (ch_heading c))
                         (heading_map !! default "" (ch_heading_id c))))
                   workitems acc
             | _ => mret acc
             end = Ok mid) as [mid Hmid].
  { destruct (ch_workitems c) as [[|w ws]|]; try (by eexists).
    eapply for_each_returns; [|exact Hown]. intros ? ?. apply emit_returns. }
  simpl in Hmid |- *. rewrite Hmid. simpl.
  eapply for_each_returns with (P := fun s => Forall printable (default [] (sub_workitems s))).
  - intros ? ?. apply subchapter_body_returns.
  - clear -Hsubs. induction (default [] (ch_subchapters c)) as [|s ss IH];
      simpl in *; [constructor|].
    apply Forall_app in Hsubs as [? ?]. constructor; auto.
Qed.

(** The whole traversal, chapter by chapter. *)
Lemma process_requirements_chunks (data : brake_data) items :
  Headings.process_requirements self data heading_map = Ok items ->
  exists chunks,
    items = concat chunks
    /\ Forall2 (fun c chunk =>
                  exists own subs,
                    chunk = own ++ concat subs
                    /\ Forall2 (built_under (chapter_parent c))
                         (default [] (ch_workitems c)) own
                    /\ Forall2 (fun s its =>
                                  Forall2 (built_under (subchapter_parent s))
                                    (default [] (sub_workitems s)) its)
                         (default [] (ch_subchapters c)) subs)
         (chapters_of data) chunks.
Proof.
  unfold Headings.process_requirements, chapters_of. intros H.
  assert (for_each (Headings.process_chapter_body self heading_map)
            (chapters_of data) [] = Ok items) as Hloop.
  { unfold chapters_of.
    destruct (data_document data) as [doc|]; simpl in H |- *.
    - destruct (doc_chapters doc) as [[cs|]|]; simpl in H |- *;
        [exact H|discriminate|exact H].
    - exact H. }
  eapply for_each_chunks in Hloop as (chunks & -> & HF).
  - exists chunks. split; [done|exact HF].
  - intros acc c acc' Hc. simpl.
    destruct (chapter_body_appends _ _ _ Hc) as (own & subs & -> & ? & ?).
    exists (own ++ concat subs). split; [done|]. by exists own, subs.
Qed.

End HeadingsLoops.

(** ** The no-headings converter: what each loop appends *)

Section NoHeadingsLoops.

Lemma flat_requirement_returns d r l o :
  complete r -> exists it, flat_requirement d r l o = Ok it.
Proof.
  intros (([id Hid] & [ti Ht] & [de Hd]) & [ca Hc] & [pr Hp]).
  unfold flat_requirement. rewrite Hid, Ht, Hd, Hc, Hp. simpl. by eexists.
Qed.

(** Only the configuration of the converter matters to the items. *)
Lemma flat_built_config (m n : NoHeadings.converter) r it :
  NoHeadings.document_id m = NoHeadings.document_id n ->
  NoHeadings.heading_ids m = NoHeadings.heading_ids n ->
  flat_built m r it -> flat_built n r it.
Proof.
  intros Hd Hh (t & o & H). exists t, o.
  unfold NoHeadings.create_requirement_workitem, NoHeadings.get_heading_id in *.
  by rewrite <- Hd, <- Hh.
Qed.

Variable self : NoHeadings.converter.

Lemma append_requirements_appends title prefix ws acc out :
  NoHeadings.append_requirements self title prefix ws acc = Ok out ->
  exists items, out = acc ++ items /\ Forall2 (flat_built self) ws items.
Proof.
  unfold NoHeadings.append_requirements. intros H.
  eapply for_each_singles with (R := fun ix it => flat_built self (snd ix) it)
    in H as (items & -> & HF).
  - exists items. split; [done|]. by eapply Forall2_enumerate.
  - intros a [idx w] a' Hb. simpl in Hb.
    apply bind_Ok_inv in Hb as (it & Hit & [= <-]).
    exists it. split; [done|]. by do 2 eexists.
Qed.

Lemma append_requirements_returns title prefix ws acc :
  Forall complete ws ->
  exists out, NoHeadings.append_requirements self title prefix ws acc = Ok out.
Proof.
  intros H. unfold NoHeadings.append_requirements.
  eapply for_each_returns with (P := fun ix => complete (snd ix)).
  - intros a [idx w] Hw. simpl in *.
    unfold NoHeadings.create_requirement_workitem.
    edestruct flat_requirement_returns as [it ->]; [exact Hw|]. by eexists.
  - by apply Forall_enumerate.
Qed.

Lemma process_subchapter_items s cn sn items :
  NoHeadings.process_subchapter self s cn sn = Ok items ->
  Forall2 (flat_built self) (default [] (sub_workitems s)) items.
Proof.
  unfold NoHeadings.process_subchapter. intros H.
  apply bind_Ok_inv in H as (t & _ & H).
  destruct (sub_workitems s) as [ws|].
  - apply append_requirements_appends in H as (its & -> & HF). exact HF.
  - injection H as <-. constructor.
Qed.

Lemma process_subchapter_returns s cn sn :
  is_Some (sub_heading s) -> Forall complete (default [] (sub_workitems s)) ->
  exists items, NoHeadings.process_subchapter self s cn sn = Ok items.
Proof.
  intros [t Ht] H. unfold NoHeadings.process_subchapter. rewrite Ht. simpl.
  destruct (sub_workitems s) as [ws|]; [|by eexists].
  by apply append_requirements_returns.
Qed.

Lemma process_chapter_items c cn items :
  NoHeadings.process_chapter self c cn = Ok items ->
  Forall2 (flat_built self) (chapter_requirements c) items.
Proof.
  unfold NoHeadings.process_chapter, chapter_requirements. intros H.
  apply bind_Ok_inv in H as (t & _ & H).
  apply bind_Ok_inv in H as (own & Hown & H).
  assert (Forall2 (flat_built self) (default [] (ch_workitems c)) own) as HFown.
  { destruct (ch_workitems c) as [[|w ws]|].
    - injection Hown as <-. constructor.
    - apply append_requirements_appends in Hown as (its & -> & HF). exact HF.
    - injection Hown as <-. constructor. }
  destruct (ch_subchapters c) as [subs|]; simpl default.
  - eapply for_each_chunks
      with (R := fun ix its =>
                   Forall2 (flat_built self) (default [] (sub_workitems (snd ix))) its)
      in H as (yss & -> & HF).
    + apply Forall2_app; [exact HFown|].
      apply Forall2_concat.
      clear -HF. revert HF. generalize 1. revert yss.
      induction subs as [|s subs IH]; intros yss k HF; simpl in *.
      * inversion HF. constructor.
      * inversion HF; subst. constructor; [done|]. eapply IH. eassumption.
    + intros a [idx s] a' Hb. simpl in Hb.
      apply bind_Ok_inv in Hb as (its & Hits & [= <-]).
      exists its. split; [done|]. simpl. by eapply process_subchapter_items.
  - injection H as <-. rewrite app_nil_r. exact HFown.
Qed.

Lemma process_chapter_returns c cn :
  is_Some (ch_heading c) ->
  Forall (fun s => is_Some (sub_heading s)) (default [] (ch_subchapters c)) ->
  Forall complete (chapter_requirements c) ->
  exists items, NoHeadings.process_chapter self c cn = Ok items.
Proof.
  intros [t Ht] Hheads [Hown Hsubs]%Forall_app.
  unfold NoHeadings.process_chapter. rewrite Ht. simpl.
  assert (exists own,
             match ch_workitems c with
             | Some ((_ :: _) as workitems) =>
                 NoHeadings.append_requirements self t (str_of_nat cn) workitems []
             | _ => mret []
             end = Ok own) as [own Hown'].
  { destruct (ch_workitems c) as [[|w ws]|]; try (by eexists).
    by apply append_requirements_returns. }
  rewrite Hown'. simpl.
  destruct (ch_subchapters c) as [subs|]; simpl in *; [|by eexists].
  eapply for_each_returns
    with (P := fun ix => is_Some (sub_heading (snd ix))
                         /\ Forall complete (default [] (sub_workitems (snd ix)))).
  - intros a [idx s] [Hs Hc]. simpl in *.
    destruct (process_subchapter_returns s cn idx Hs Hc) as [its ->]. by eexists.
  - clear -Hheads Hsubs. generalize 1.
    induction subs as [|s subs IH]; intros k; simpl in *; [constructor|].
    apply Forall_app in Hsubs as [? ?]. inversion Hheads; subst.
    constructor; [done|]. by apply IH.
Qed.

End NoHeadingsLoops.

Lemma process_chapters_items (cs : list chapter) :
  forall start (m n : NoHeadings.converter),
    for_each
      (fun self '(chapter_num, chapter) =>
         items ← NoHeadings.process_chapter self chapter chapter_num;
         mret (NoHeadings.set_work_items self (NoHeadings.work_items self ++ items)))
      (enumerate start cs) m = Ok n ->
    exists items,
      NoHeadings.work_items n = NoHeadings.work_items m ++ items
      /\ Forall2 (flat_built m) (requirements_in_order cs) items.
Proof.
  induction cs as [|c cs IH]; intros start m n H; simpl in H.
  - injection H as <-. exists []. rewrite app_nil_r. split; [done|constructor].
  - destruct (NoHeadings.process_chapter m c start) as [its|] eqn:Hc; [|discriminate].
    simpl in H. apply IH in H as (rest & Hw & HF). simpl in Hw.
    exists (its ++ rest). rewrite Hw, app_assoc. split; [done|].
    unfold requirements_in_order. simpl. apply Forall2_app.
    + by eapply process_chapter_items.
    + eapply Forall2_impl; [exact HF|].
      intros r it. by apply flat_built_config.
Qed.

Lemma process_chapters_returns (cs : list chapter) :
  forall start (m : NoHeadings.converter),
    headed cs -> Forall complete (requirements_in_order cs) ->
    exists n,
      for_each
        (fun self '(chapter_num, chapter) =>
           items ← NoHeadings.process_chapter self chapter chapter_num;
           mret (NoHeadings.set_work_items self (NoHeadings.work_items self ++ items)))
        (enumerate start cs) m = Ok n.
Proof.
  induction cs as [|c cs IH]; intros start m Hh Hc; simpl.
  - by eexists.
  - inversion Hh as [|? ? [Hc1 Hc2] Hh']; subst.
    unfold requirements_in_order in Hc. simpl in Hc.
    apply Forall_app in Hc as [Hc Hrest].
    destruct (process_chapter_returns m c start Hc1 Hc2 Hc) as [its ->]. simpl.
    by apply IH.
Qed.

(** ** Traversal order *)

Lemma chunks_in_order (self : Headings.converter) (heading_map : gmap string string)
    (cs : list chapter) (chunks : list (list linked_item)) :
  Forall2 (fun c chunk =>
             exists own subs,
               chunk = own ++ concat subs
               /\ Forall2 (built_under self (chapter_parent heading_map c))
                    (default [] (ch_workitems c)) own
               /\ Forall2 (fun s its =>
                             Forall2 (built_under self (subchapter_parent heading_map s))
                               (default [] (sub_workitems s)) its)
                    (default [] (ch_subchapters c)) subs)
    cs chunks ->
  Forall2 (nested_built self) (requirements_in_order cs) (concat chunks).
Proof.
  intros H. unfold requirements_in_order. apply Forall2_map_chunks.
  eapply Forall2_impl; [exact H|]. clear.
  intros c chunk (own & subs & -> & Hown & Hsubs).
  unfold chapter_requirements. apply Forall2_app.
  - eapply Forall2_impl; [exact Hown|]. intros r it Hb. by eexists.
  - apply Forall2_map_chunks. eapply Forall2_impl; [exact Hsubs|].
    intros s its Hs. eapply Forall2_impl; [exact Hs|]. intros r it Hb. by eexists.
Qed.

(** The headings traversal emits the work items in reading order. *)
Lemma headings_in_order (h : Headings.converter)
    (heading_map : gmap string string) (data : brake_data) :
  (forall items,
      Headings.process_requirements h data heading_map = Ok items ->
      Forall2 (nested_built h) (requirements_in_order (chapters_of data)) items
      /\ length items = total_workitems (chapters_of data)).
Proof.
  intros items H.
  destruct (process_requirements_chunks _ _ _ _ H) as (chunks & -> & HF).
  apply chunks_in_order in HF. split; [exact HF|].
  apply Forall2_length in HF.
  by rewrite <- HF, length_requirements_in_order.
Qed.

(** C1. The traversal yields one output record per work item of the
    tree, in reading order: chapters in input order, in each chapter its
    own work items first and then those of each subchapter in input
    order; the number of records is the number of work items in the tree.
    This holds of the headings converter and of the no-headings
    converter, and both traversals return on a tree that carries the keys
    they read. *)
Theorem C1_traversal_order (h : Headings.converter) (n : NoHeadings.converter)
    (heading_map : gmap string string) (data : brake_data) :
  let cs := chapters_of data in
  (forall items,
      Headings.process_requirements h data heading_map = Ok items ->
      Forall2 (nested_built h) (requirements_in_order cs) items
      /\ length items = total_workitems cs)
  /\ (walkable data -> Forall printable (requirements_in_order cs) ->
      exists items, Headings.process_requirements h data heading_map = Ok items)
  /\ (forall n',
      NoHeadings.process_chapters n cs = Ok n' ->
      exists items,
        NoHeadings.work_items n' = NoHeadings.work_items n ++ items
        /\ Forall2 (flat_built n) (requirements_in_order cs) items
        /\ length items = total_workitems cs)
  /\ (headed cs -> Forall complete (requirements_in_order cs) ->
      exists n', NoHeadings.process_chapters n cs = Ok n').
Proof.
  intros cs. split; [|split; [|split]].
  - apply headings_in_order.
  - intros Hw Hp. unfold Headings.process_requirements.
    assert (iter_chapters
              (default (ChaptersList [])
                 (doc_chapters (default empty_document (data_document data))))
            = Ok cs) as ->.
    { subst cs. unfold chapters_of, walkable in *.
      destruct (data_document data) as [doc|]; simpl; [|done].
      specialize (Hw doc eq_refl).
      by destruct (doc_chapters doc) as [[?|]|]. }
    simpl.
    eapply for_each_returns with (P := fun c => Forall printable (chapter_requirements c)).
    + intros acc c Hc. by apply chapter_body_returns.
    + by apply Forall_concat_map.
  - intros n' H. unfold NoHeadings.process_chapters in H.
    apply process_chapters_items in H as (items & Hw & HF).
    exists items. repeat split; [done..|].
    apply Forall2_length in HF. by rewrite <- HF, length_requirements_in_order.
  - intros Hh Hc. by apply process_chapters_returns.
Qed.

Lemma C1_traversal_order_witness :
  exists items,
    Headings.process_requirements sample_headings sample_data ∅ = Ok items
    /\ length items = 3.
Proof.
  destruct (proj1 (proj2 (C1_traversal_order sample_headings
                            (NoHeadings.new_converter "T" None) ∅ sample_data)))
    as [items Hitems].
  - intros doc [= <-]. discriminate.
  - repeat constructor; by eexists.
  - exists items. split; [exact Hitems|].
    apply (proj1 (C1_traversal_order sample_headings
                    (NoHeadings.new_converter "T" None) ∅ sample_data) items Hitems).
Defined.

Example headings_sample_run :
  (fun its => map (fun it => wi_title (work_item it)) its)
    <$> match Headings.process_requirements sample_headings sample_data ∅ with
        | Ok its => Some its
        | Raise _ => None
        end
  = Some ["Title of BR-1 20250101_000000"; "Title of BR-2 20250101_000000";
          "Title of BR-3 20250101_000000"].
Proof. vm_compute. reflexivity. Qed.

Example no_headings_sample_run :
  match NoHeadings.process_chapters (NoHeadings.new_converter "T" None)
          (chapters_of sample_data) with
  | Ok n => map (fun it => (fi_id it, fi_outlineNumber it,
                            (fun l => map target_id l) <$> fi_links it))
              (NoHeadings.work_items n)
  | Raise _ => []
  end
  = [("Python/BR-1", Some "1.1", Some ["Python/FCTS-FUNC"]);
     ("Python/BR-2", Some "1.1.1", Some ["Python/FCTS-FUNC-PRIM"]);
     ("Python/BR-3", Some "1.1.2", Some ["Python/FCTS-FUNC-PRIM"])].
Proof. vm_compute. reflexivity. Qed.

(** ** Links of the headings converter *)

Lemma built_under_linked (self : Headings.converter) p r it :
  built_under self p r it -> linked_to (fst p) it.
Proof.
  unfold built_under, Headings.create_workitem_format. intros H.
  apply bind_Ok_inv in H as (wi & _ & [= <-]). simpl.
  split; [|done]. eexists. by repeat split.
Qed.

Lemma Forall2_built_linked (self : Headings.converter) p rs items :
  Forall2 (built_under self p) rs items ->
  length items = length rs /\ Forall (linked_to (fst p)) items.
Proof.
  intros H. split; [symmetry; by eapply Forall2_length|].
  induction H; constructor; eauto using built_under_linked.
Qed.

Lemma nested_built_one_parent (self : Headings.converter) rs items :
  Forall2 (nested_built self) rs items -> Forall has_one_parent_link items.
Proof.
  induction 1 as [|r it rs items [p Hb] _ IH]; constructor; [|done].
  exists (fst p). by eapply built_under_linked.
Qed.

(** C8. Every item the headings converter emits has exactly one link,
    of role "has_parent", and an empty children list; a chapter without
    ["heading_id"] gives its own work items the target "", and so does a
    subchapter without ["heading_id"]. *)
Theorem C8_one_parent_link (self : Headings.converter)
    (heading_map : gmap string string) (data : brake_data) :
  (forall items,
      Headings.process_requirements self data heading_map = Ok items ->
      Forall has_one_parent_link items)
  /\ (forall acc c acc',
      ch_heading_id c = None ->
      Headings.process_chapter_body self heading_map acc c = Ok acc' ->
      exists own rest,
        acc' = acc ++ own ++ rest
        /\ length own = length (default [] (ch_workitems c))
        /\ Forall (linked_to "") own
        /\ Forall has_one_parent_link rest)
  /\ (forall acc s acc',
      sub_heading_id s = None ->
      Headings.process_subchapter_body self heading_map acc s = Ok acc' ->
      exists items,
        acc' = acc ++ items
        /\ length items = length (default [] (sub_workitems s))
        /\ Forall (linked_to "") items).
Proof.
  split; [|split].
  - intros items H.
    destruct (headings_in_order self heading_map data items H) as [HF _].
    by eapply nested_built_one_parent.
  - intros acc c acc' Hid H.
    destruct (chapter_body_appends _ _ _ _ _ H) as (own & subs & -> & Hown & Hsubs).
    exists own, (concat subs).
    apply Forall2_built_linked in Hown as [Hlen Hown].
    unfold chapter_parent in Hown. rewrite Hid in Hown.
    repeat split; [done..|].
    eapply Forall_concat_chunks; [|exact Hsubs].
    intros s its Hs. simpl in Hs.
    apply Forall2_built_linked in Hs as [_ Hs].
    eapply Forall_impl; [exact Hs|]. intros it Hit. by eexists.
  - intros acc s acc' Hid H.
    destruct (subchapter_body_appends _ _ _ _ _ H) as (items & -> & HF).
    exists items. apply Forall2_built_linked in HF as [Hlen HF].
    unfold subchapter_parent in HF. rewrite Hid in HF. by repeat split.
Qed.

Lemma C8_one_parent_link_witness :
  exists items,
    Headings.process_subchapter_body sample_headings ∅ [] sample_subchapter = Ok items
    /\ length items = 2
    /\ Forall (linked_to "") items.
Proof.
  destruct (proj2 (proj2 (C8_one_parent_link sample_headings ∅ sample_data))
              [] sample_subchapter
              (match Headings.process_subchapter_body sample_headings ∅ []
                       sample_subchapter with
               | Ok its => its
               | Raise _ => []
               end) eq_refl eq_refl)
    as (items & Heq & Hlen & HF).
  exists items. simpl in Heq. subst items.
  split; [reflexivity|]. split; [exact Hlen|exact HF].
Defined.

(** ** Counts in the metadata *)

Lemma count_types (l : list flat_item) :
  Forall typed l ->
  length l = Synthetic.count_type "requirement" l + Synthetic.count_type "heading" l.
Proof.
  unfold Synthetic.count_type.
  induction 1 as [|it l [Ht|Ht] _ IH]; simpl; [done|..]; rewrite Ht; simpl; lia.
Qed.

Lemma flat_requirement_typed d r l o it :
  flat_requirement d r l o = Ok it -> fi_type it = "requirement".
Proof.
  unfold flat_requirement.
  destruct (req_id r), (req_title r), (req_description r), (req_category r),
    (req_priority r); simpl; intros H; try discriminate.
  by injection H as <-.
Qed.

Section SyntheticTypes.
Variable self : Synthetic.converter.

Lemma synthetic_append_typed parent prefix ws acc out :
  Forall typed acc ->
  Synthetic.append_requirements self parent prefix ws acc = Ok out ->
  Forall typed out.
Proof.
  unfold Synthetic.append_requirements. intros Hacc H.
  eapply for_each_invariant with (I := Forall typed); [|exact Hacc|exact H].
  intros a [idx w] a' Ha Hb. simpl in Hb.
  apply bind_Ok_inv in Hb as (it & Hit & [= <-]).
  apply Forall_app. split; [done|]. constructor; [|constructor].
  left. by eapply flat_requirement_typed.
Qed.

Lemma process_subchapter_typed s cn sn parent items self' :
  Synthetic.process_subchapter self s cn sn parent = Ok (items, self') ->
  Forall typed items
  /\ Synthetic.timestamp self' = Synthetic.timestamp self
  /\ Synthetic.document_id self' = Synthetic.document_id self
  /\ Synthetic.work_items self' = Synthetic.work_items self.
Proof.
  unfold Synthetic.process_subchapter, Synthetic.generate_heading_id. intros H.
  apply bind_Ok_inv in H as (heading & _ & H).
  apply bind_Ok_inv in H as (its & Hits & [= <- <-]).
  split; [|done].
  destruct (sub_workitems s) as [ws|].
  - eapply synthetic_append_typed; [|exact Hits].
    constructor; [by right|constructor].
  - injection Hits as <-. constructor; [by right|constructor].
Qed.

End SyntheticTypes.

Lemma process_chapter_typed (self : Synthetic.converter) c cn parent items self' :
  Synthetic.process_chapter self c cn parent = Ok (items, self') ->
  Forall typed items
  /\ Synthetic.timestamp self' = Synthetic.timestamp self
  /\ Synthetic.document_id self' = Synthetic.document_id self
  /\ Synthetic.work_items self' = Synthetic.work_items self.
Proof.
  unfold Synthetic.process_chapter, Synthetic.generate_heading_id. intros H.
  apply bind_Ok_inv in H as (heading & _ & H).
  apply bind_Ok_inv in H as (own & Hown & H).
  set (self1 := Synthetic.set_heading_counter self (Synthetic.heading_counter self + 1)) in *.
  assert (Forall typed own) as Htyped.
  { destruct (ch_workitems c) as [[|w ws]|].
    - injection Hown as <-. constructor; [by right|constructor].
    - eapply synthetic_append_typed; [|exact Hown].
      constructor; [by right|constructor].
    - injection Hown as <-. constructor; [by right|constructor]. }
  destruct (ch_subchapters c) as [subs|].
  - eapply for_each_invariant
      with (I := fun st => Forall typed (fst st)
                           /\ Synthetic.timestamp (snd st) = Synthetic.timestamp self
                           /\ Synthetic.document_id (snd st) = Synthetic.document_id self
                           /\ Synthetic.work_items (snd st) = Synthetic.work_items self)
      in H; [exact H| |by repeat split].
    intros [its st] [idx s] [its' st'] (Hi & Ht & Hd & Hw) Hb. simpl in *.
    apply bind_Ok_inv in Hb as ([sub_items st''] & Hs & [= <- <-]).
    apply process_subchapter_typed in Hs as (Hs & Ht' & Hd' & Hw').
    simpl. split; [by apply Forall_app|]. by rewrite Ht', Hd', Hw'.
  - injection H as <- <-. by repeat split.
Qed.

Lemma convert_body_counts (self : Synthetic.converter) data o self' :
  Forall typed (Synthetic.work_items self) ->
  Synthetic.convert_body self data = Ok (o, self') ->
  Synthetic.total_items (Synthetic.meta o) = length (Synthetic.out_work_items o)
  /\ Synthetic.total_items (Synthetic.meta o)
     = Synthetic.total_requirements (Synthetic.meta o)
       + Synthetic.total_headings (Synthetic.meta o).
Proof.
  unfold Synthetic.convert_body, Synthetic.generate_heading_id. intros Hself H.
  apply bind_Ok_inv in H as (doc & _ & H).
  apply bind_Ok_inv in H as (title & _ & H).
  apply bind_Ok_inv in H as (version & _ & H).
  apply bind_Ok_inv in H as (created & _ & H).
  apply bind_Ok_inv in H as (cv & _ & H).
  apply bind_Ok_inv in H as (cs & _ & H).
  apply bind_Ok_inv in H as (final & Hloop & H).
  apply bind_Ok_inv in H as (title' & _ & H).
  apply bind_Ok_inv in H as (project & _ & H).
  apply bind_Ok_inv in H as (space & _ & H).
  apply bind_Ok_inv in H as (version' & _ & [= <- <-]).
  simpl. split; [done|]. apply count_types.
  eapply for_each_invariant
    with (I := fun st => Forall typed (Synthetic.work_items st)) in Hloop;
    [exact Hloop| |].
  - intros st [k c] st' Hst Hb. simpl in Hb.
    apply bind_Ok_inv in Hb as ([its st''] & Hc & [= <-]).
    apply process_chapter_typed in Hc as (Hits & _ & _ & Hw).
    simpl. rewrite Hw. by apply Forall_app.
  - simpl. apply Forall_app. split; [done|].
    constructor; [by right|constructor].
Qed.

(** C9. In every converter that writes metadata, [total_items] is the
    length of the [work_items] list; in the synthetic-headings converter
    it is also [total_requirements + total_headings]. *)
Theorem C9_total_items (now : string) (hs : Headings.converter)
    (ind : Individual.converter) (syn : Synthetic.converter)
    (nh : NoHeadings.converter) (heading_map : gmap string string)
    (doc_found : bool) (data : brake_data) (input : input_file brake_data) :
  (forall o, written (Headings.run hs data heading_map) = Some o ->
             Headings.total_items (Headings.meta o) = length (Headings.work_items o))
  /\ (forall o, written (Individual.run ind doc_found data) = Some o ->
                Individual.total_items (Individual.meta o)
                = length (Individual.work_items o))
  /\ (forall o, written (NoHeadings.convert nh input) = Some o ->
                NoHeadings.total_items (NoHeadings.meta o)
                = length (NoHeadings.out_work_items o))
  /\ (forall o, written (Synthetic.convert syn input) = Some o ->
                Synthetic.total_items (Synthetic.meta o)
                = length (Synthetic.out_work_items o))
  /\ (forall o, written (Synthetic.convert (Synthetic.new_converter now) input) = Some o ->
                Synthetic.total_items (Synthetic.meta o)
                = Synthetic.total_requirements (Synthetic.meta o)
                  + Synthetic.total_headings (Synthetic.meta o)).
Proof.
  split; [|split; [|split; [|split]]].
  - intros o. unfold Headings.run.
    destruct (Headings.process_requirements hs data heading_map); simpl;
      [|discriminate]. by intros [= <-].
  - intros o. unfold Individual.run.
    destruct doc_found; simpl; [|discriminate].
    destruct (Individual.convert_requirements ind data); simpl; [|discriminate].
    by intros [= <-].
  - intros o. unfold NoHeadings.convert.
    destruct input as [| |d]; simpl; try discriminate.
    destruct (validate_input d) as [[|] ?]; simpl; [|discriminate].
    destruct (NoHeadings.convert_body nh d) as [[o' ?]|] eqn:Hb; simpl; [|discriminate].
    intros [= <-]. unfold NoHeadings.convert_body in Hb.
    repeat (apply bind_Ok_inv in Hb as (? & _ & Hb)).
    by injection Hb as <- <-.
  - intros o. unfold Synthetic.convert.
    destruct input as [| |d]; simpl; try discriminate.
    destruct (validate_input d) as [[|] ?]; simpl; [|discriminate].
    destruct (Synthetic.convert_body syn d) as [[o' ?]|] eqn:Hb; simpl; [|discriminate].
    intros [= <-]. unfold Synthetic.convert_body, Synthetic.generate_heading_id in Hb.
    repeat (apply bind_Ok_inv in Hb as (? & _ & Hb)).
    by injection Hb as <- <-.
  - intros o. unfold Synthetic.convert.
    destruct input as [| |d]; simpl; try discriminate.
    destruct (validate_input d) as [[|] ?]; simpl; [|discriminate].
    destruct (Synthetic.convert_body (Synthetic.new_converter now) d)
      as [[o' ?]|] eqn:Hb; simpl; [|discriminate].
    intros [= <-]. eapply convert_body_counts; [|exact Hb]. constructor.
Qed.

Lemma C9_total_items_witness :
  exists o,
    written (Synthetic.convert (Synthetic.new_converter "T") (Json sample_data)) = Some o
    /\ Synthetic.total_items (Synthetic.meta o) = 6
    /\ Synthetic.total_items (Synthetic.meta o)
       = Synthetic.total_requirements (Synthetic.meta o)
         + Synthetic.total_headings (Synthetic.meta o).
Proof.
  eexists. split; [reflexivity|]. split; [reflexivity|].
  apply (proj2 (proj2 (proj2 (proj2
           (C9_total_items "T" sample_headings sample_individual
              (Synthetic.new_converter "T") (NoHeadings.new_converter "T" None)
              ∅ true sample_data (Json sample_data)))))).
  reflexivity.
Defined.

Example synthetic_sample_run :
  match written (Synthetic.convert (Synthetic.new_converter "T") (Json sample_data)) with
  | Some o => map (fun it => (fi_id it, fi_type it, fi_outlineNumber it))
                (Synthetic.out_work_items o)
  | None => []
  end
  = [("Python/BR-HEAD-1001", "heading", Some "1");
     ("Python/BR-HEAD-1002", "heading", Some "2");
     ("Python/BR-1", "requirement", Some "2.1");
     ("Python/BR-HEAD-1003", "heading", Some "2.1");
     ("Python/BR-2", "requirement", Some "2.1.1");
     ("Python/BR-3", "requirement", Some "2.1.2")].
Proof. vm_compute. reflexivity. Qed.

(** ** Keyword matching of headings (individual converter) *)

Section KeywordMatching.
Variable existing : odict existing_item.



End KeywordMatching.




Example later_keyword_when_first_has_no_present_id :
  first_keyword Individual.heading_map (Individual.clean "6.4 Interface Test")
  = Some ("interface", ["Python/FCTS-9173"; "Python/FCTS-9158"])
  /\ first_present sample_existing ["Python/FCTS-9173"; "Python/FCTS-9158"] = None
  /\ Individual.match_heading_to_workitem sample_individual
       "6. Interface Requirements" (Some "6.4 Interface Test")
     = "Python/FCTS-9159".
Proof. repeat split. Qed.

(** The exact converter matches the requirement's title under the rule of
    its category, not a heading, and its fallback prefers what exists. *)
Example exact_fallback_prefers_existing :
  Exact.map_requirement_to_parent sample_exact
    (sample_requirement "BR-9" "Maintenance" "Low")
  = "Python/FCTS-9157".
Proof. reflexivity. Qed.

(** ** The parent/child bundle (exact converter) *)

Lemma collect_requirements_from (cs : list chapter) (acc : list requirement) :
  fold_left
    (fun all_requirements chapter =>
       let all_requirements :=
         match ch_workitems chapter with
         | Some workitems => all_requirements ++ workitems
         | None => all_requirements
         end in
       fold_left
         (fun all_requirements subchapter =>
            match sub_workitems subchapter with
            | Some workitems => all_requirements ++ workitems
            | None => all_requirements
            end)
         (default [] (ch_subchapters chapter)) all_requirements)
    cs acc
  = acc ++ requirements_in_order cs.
Proof.
  revert acc. induction cs as [|c cs IH]; intros acc; simpl.
  - by rewrite app_nil_r.
  - rewrite IH. unfold requirements_in_order. simpl. rewrite app_assoc. f_equal.
    unfold chapter_requirements. rewrite app_assoc.
    assert (forall ss (a : list requirement),
               fold_left
                 (fun all_requirements subchapter =>
                    match sub_workitems subchapter with
                    | Some workitems => all_requirements ++ workitems
                    | None => all_requirements
                    end) ss a
               = a ++ concat (map (fun s => default [] (sub_workitems s)) ss)) as Hsubs.
    { induction ss as [|s ss IHs]; intros a; simpl.
      - by rewrite app_nil_r.
      - rewrite IHs. destruct (sub_workitems s); simpl.
        + by rewrite app_assoc.
        + done. }
    rewrite Hsubs. f_equal. destruct (ch_workitems c); simpl; [done|].
    by rewrite app_nil_r.
Qed.

Lemma collect_requirements_in_order (cs : list chapter) :
  Exact.collect_requirements cs = requirements_in_order cs.
Proof. unfold Exact.collect_requirements. by rewrite collect_requirements_from. Qed.

Lemma nested_work_item_returns ts d r :
  described r -> exists w, nested_work_item ts d r = Ok w.
Proof.
  intros [[t Ht] [de Hd]]. unfold nested_work_item. rewrite Ht, Hd. simpl. by eexists.
Qed.

(** C7. [convert_requirements] of the exact converter makes one bundle:
    the first requirement in reading order is the top-level [work_item]
    and brings its links, every later requirement is one entry of
    [children] in reading order, and a document without requirements
    gives [work_item = null] with empty [links] and [children]. *)
Theorem C7_single_bundle (self : Exact.converter) (data : brake_data) :
  let reqs := requirements_in_order (chapters_of data) in
  (forall out,
      Exact.convert_requirements self data = Ok out ->
      match reqs with
      | [] =>
          out = {| Exact.out_work_item := None; Exact.out_links := [];
                   Exact.out_children := [] |}
      | first :: rest =>
          (exists wi, exact_built self first wi /\ Exact.out_work_item out = Some wi)
          /\ Exact.out_links out
             = Exact.create_links self first (Exact.map_requirement_to_parent self first)
          /\ Forall2 (exact_built self) rest (Exact.out_children out)
      end)
  /\ (walkable data -> Forall described reqs ->
      exists out, Exact.convert_requirements self data = Ok out).
Proof.
  intros reqs.
  assert (walkable data ->
          iter_chapters
            (default (ChaptersList [])
               (doc_chapters (default empty_document (data_document data))))
          = Ok (chapters_of data)) as Hwalk.
  { unfold chapters_of, walkable. intros Hw.
    destruct (data_document data) as [doc|]; simpl; [|done].
    specialize (Hw doc eq_refl). by destruct (doc_chapters doc) as [[?|]|]. }
  split.
  - intros out H. unfold Exact.convert_requirements in H.
    apply bind_Ok_inv in H as (cs & Hcs & H).
    assert (cs = chapters_of data) as ->.
    { unfold chapters_of. destruct (data_document data) as [doc|]; simpl in Hcs.
      - destruct (doc_chapters doc) as [[?|]|]; simpl in Hcs; by inversion Hcs.
      - by inversion Hcs. }
    rewrite collect_requirements_in_order in H. fold reqs in H.
    destruct reqs as [|first rest].
    + by injection H as <-.
    + apply bind_Ok_inv in H as (wi & Hwi & H).
      apply bind_Ok_inv in H as (children & Hch & [= <-]). simpl.
      split; [by exists wi|]. split; [done|].
      eapply for_each_singles with (R := exact_built self) in Hch
          as (ys & -> & HF); [exact HF|].
      intros acc r acc' Hb. apply bind_Ok_inv in Hb as (c & Hc & [= <-]).
      by exists c.
  - intros Hw Hd. unfold Exact.convert_requirements.
    rewrite (Hwalk Hw). simpl. rewrite collect_requirements_in_order. fold reqs.
    destruct reqs as [|first rest]; [by eexists|].
    inversion Hd as [|? ? Hfirst Hrest]; subst.
    unfold Exact.create_workitem_exact_format.
    destruct (nested_work_item_returns (Exact.timestamp self) (Exact.document_id self)
                first Hfirst) as [wi ->]. simpl.
    edestruct (for_each_returns (S := list work_item_fields) described) as [ch ->];
      [|exact Hrest|by eexists].
    intros acc r Hr.
    destruct (nested_work_item_returns (Exact.timestamp self) (Exact.document_id self)
                r Hr) as [w ->]. by eexists.
Qed.

Lemma C7_single_bundle_witness :
  exists out,
    Exact.convert_requirements sample_exact sample_data = Ok out
    /\ (wi_title <$> Exact.out_work_item out) = Some "Title of BR-1 20250101_000000"
    /\ map target_id (Exact.out_links out) = ["Python/FCTS-9157"; "Python/FCTS-9155"]
    /\ Forall2 (exact_built sample_exact)
         [sample_requirement "BR-2" "Safety" "High";
          sample_requirement "BR-3" "Testing" "Low"]
         (Exact.out_children out).
Proof.
  eexists. split; [reflexivity|]. split; [reflexivity|]. split; [reflexivity|].
  apply (proj1 (C7_single_bundle sample_exact sample_data) _ eq_refl).
Defined.

Example exact_empty_document :
  Exact.convert_requirements sample_exact data_without_version
  = Ok {| Exact.out_work_item := None; Exact.out_links := []; Exact.out_children := [] |}.
Proof. reflexivity. Qed.

(** ** Heading IDs of the no-headings converter *)



Lemma find_in {A} (p : A -> bool) (l : list A) x :
  List.find p l = Some x -> x ∈ l.
Proof.
  induction l as [|y l IH]; simpl; [discriminate|].
  destruct (p y).
  - intros [= ->]. by left.
  - intros H. right. by apply IH.
Qed.



Example cleaned_empty_title_hits_first_key :
  NoHeadings.get_heading_id (NoHeadings.new_converter "T" None) "7 " = "Python/FCTS-ROOT".
Proof. reflexivity. Qed.

Example custom_map_overrides_and_appends :
  let self := NoHeadings.new_converter "T"
                (Some [("root", "Python/X-1"); ("11. Glossary", "Python/X-2")]) in
  NoHeadings.get_heading_id self "root" = "Python/X-1"
  /\ NoHeadings.get_heading_id self "11. Glossary" = "Python/X-2"
  /\ fst <$> last (NoHeadings.heading_ids self) = Some "11. Glossary".
Proof. repeat split. Qed.


(** * Further properties of the converters *)

(** ** Substring test and outline stripping *)

Lemma append_cons (c : ascii) (a b : string) :
  (String c a ++ b)%string = String c (a ++ b)%string.
Proof. reflexivity. Qed.

Lemma append_nil (b : string) : ("" ++ b)%string = b.
Proof. reflexivity. Qed.


Lemma prefix_app (n h : string) :
  String.prefix n h = true <-> exists post, h = (n ++ post)%string.
Proof.
  revert h. induction n as [|c n IH]; intros h.
  - split; [intros _; exists h; reflexivity|by destruct h].
  - destruct h as [|c' h]; simpl.
    + split; [discriminate|]. intros [post Hp]. rewrite append_cons in Hp. discriminate.
    + destruct (Ascii.ascii_dec c c') as [->|Hne].
      * rewrite IH. split; intros [post Hp]; exists post;
          rewrite append_cons in *; congruence.
      * split; [discriminate|]. intros [post Hp].
        rewrite append_cons in Hp. congruence.
Qed.

(** X1. [needle in hay] holds exactly when [hay] is some text, then
    [needle], then some text. *)
Theorem str_in_substring (needle hay : string) :
  str_in needle hay = true <->
  exists pre post, hay = (pre ++ needle ++ post)%string.
Proof.
  induction hay as [|c hay IH]; cbn [str_in].
  - rewrite orb_false_r, prefix_app. split.
    + intros [post ->]. by exists "", post.
    + intros ([|? ?] & post & H); [by exists post|].
      rewrite append_cons in H. discriminate.
  - rewrite orb_true_iff, prefix_app, IH. split.
    + intros [[post ->]|(pre & post & ->)].
      * by exists "", post.
      * by exists (String c pre), post.
    + intros ([|c' pre] & post & H).
      * left. by exists post.
      * right. rewrite append_cons in H. injection H as -> ->. by exists pre, post.
Qed.




(** ** Field mappings *)

(** X3. An item is rated "safety_critical" exactly when the requirement
    is of category "Safety" with priority "Critical", in the nested
    format and in [map_severity] alike. *)
Theorem safety_critical_iff (ts d : string) (r : requirement) (w : work_item_fields) :
  nested_work_item ts d r = Ok w ->
  (wi_severity w = "safety_critical" <->
   req_category r = Some "Safety" /\ req_priority r = Some "Critical")
  /\ (forall category priority,
        map_severity category priority = "safety_critical" <->
        category = "Safety" /\ priority = "Critical").
Proof.
  intros Hw. split.
  - rewrite (nested_work_item_severity _ _ _ _ Hw).
    unfold severity_map.
    destruct (req_category r) as [c|]; cbn [from_option id odict_get].
    + destruct (String.eqb_spec "Safety" c) as [<-|Hne].
      * case_decide as Hp; cbn [from_option id].
        -- split; [by intros _|done].
        -- split; [discriminate|]. by intros [_ ?].
      * repeat match goal with
               | |- context [String.eqb ?k c] => destruct (String.eqb_spec k c)
               end; cbn [from_option id]; split; try discriminate;
          intros [Hs _]; congruence.
    + split; [discriminate|]. by intros [? _].
  - intros category priority. unfold map_severity.
    destruct (String.eqb_spec category "Safety") as [->|Hc];
      destruct (String.eqb_spec priority "Critical") as [->|Hp]; simpl;
      try (split; [done|by intros [? ?]]).
    + repeat match goal with
             | |- context [String.eqb priority ?k] => destruct (String.eqb_spec priority k)
             end; split; try discriminate; by intros [_ ?].
    + repeat match goal with
             | |- context [String.eqb priority ?k] => destruct (String.eqb_spec priority k)
             end; split; try discriminate; by intros [? _].
Qed.

Lemma safety_critical_iff_witness :
  exists w,
    nested_work_item "T" "D" (sample_requirement "BR-1" "Safety" "Critical") = Ok w
    /\ wi_severity w = "safety_critical".
Proof.
  eexists. split; [reflexivity|].
  apply (proj1 (safety_critical_iff "T" "D"
                  (sample_requirement "BR-1" "Safety" "Critical") _ eq_refl)).
  split; reflexivity.
Defined.

Lemma Ok_inj {A} (a b : A) : Ok a = Ok b -> a = b.
Proof. by intros [= ->]. Qed.




(** ** Parent work items *)

Lemma odict_mem_in {V} (d : odict V) k v : (k, v) ∈ d -> odict_mem d k = true.
Proof.
  unfold odict_mem. induction d as [|[k' v'] d IH]; simpl.
  - by intros ?%elem_of_nil.
  - intros [[= -> ->]|Hin]%elem_of_cons.
    + by rewrite String.eqb_refl.
    + destruct (String.eqb k' k); [done|]. by apply IH.
Qed.

Lemma find_true {A} (p : A -> bool) (l : list A) x :
  List.find p l = Some x -> p x = true.
Proof.
  induction l as [|y l IH]; simpl; [discriminate|].
  destruct (p y) eqn:Hy; [by intros [= <-]|exact IH].
Qed.

Lemma scan_keywords_present existing table text wid :
  Individual.scan_keywords existing table text = Some wid ->
  odict_mem existing wid = true.
Proof.
  induction table as [|[k ids] table IH]; simpl; [discriminate|].
  destruct (str_in k text); [|exact IH].
  destruct (first_present existing ids) as [w|] eqn:Hw; [|exact IH].
  intros [= <-]. by apply find_true in Hw.
Qed.

Lemma scan_rule_present existing pref kws title wid :
  Exact.scan_rule existing pref kws title = Some wid ->
  odict_mem existing wid = true.
Proof.
  induction kws as [|k kws IH]; simpl; [discriminate|].
  destruct (str_in k title); [|exact IH].
  destruct (first_present existing pref) as [w|] eqn:Hw; [|exact IH].
  intros [= <-]. by apply find_true in Hw.
Qed.

(** X5. The parent a requirement is linked to is either a work item of
    the loaded document or the fixed ID "Python/FCTS-9156": the heading
    matcher of the individual converter and the rule matcher of the exact
    converter never invent any other ID.  In the exact converter the
    fixed ID is only returned unchecked when the document holds no work
    item of type "requirement". *)
Theorem parent_is_present_or_fallback (ind : Individual.converter)
    (ex : Exact.converter) (chapter : string) (subchapter : option string)
    (req : requirement) :
  (odict_mem (Individual.existing_workitems ind)
     (Individual.match_heading_to_workitem ind chapter subchapter) = true
   \/ Individual.match_heading_to_workitem ind chapter subchapter = "Python/FCTS-9156")
  /\ (odict_mem (Exact.existing_workitems ex)
        (Exact.map_requirement_to_parent ex req) = true
      \/ (Exact.map_requirement_to_parent ex req = "Python/FCTS-9156"
          /\ Forall (fun kv => ex_type (snd kv) <> Some "requirement")
               (Exact.existing_workitems ex))).
Proof.
  split.
  - unfold Individual.match_heading_to_workitem.
    match goal with
    | |- context [if truthy (Some ?sc) then ?scan else None] =>
        destruct (if truthy (Some sc) then scan else None) as [w|] eqn:Hs
    end.
    + left. destruct (truthy (Some _)); [|discriminate].
      by eapply scan_keywords_present.
    + destruct (Individual.scan_keywords _ _ (Individual.clean chapter)) as [w|] eqn:Hc.
      * left. by eapply scan_keywords_present.
      * by right.
  - unfold Exact.map_requirement_to_parent.
    match goal with
    | |- context [match ?m with Some p => p | None => _ end] =>
        destruct m as [w|] eqn:Hr
    end.
    + left. destruct (odict_get Exact.mapping_rules _) as [rule|]; [|discriminate].
      by eapply scan_rule_present.
    + destruct (odict_mem (Exact.existing_workitems ex) "Python/FCTS-9156") eqn:Hm;
        [by left|].
      destruct (List.find _ (Exact.existing_workitems ex)) as [[id it]|] eqn:Hf.
      * left. apply find_in in Hf. by eapply odict_mem_in.
      * right. split; [done|].
        clear -Hf. induction (Exact.existing_workitems ex) as [|kv l IH];
          [constructor|].
        simpl in Hf. case_bool_decide as Ht; [discriminate|].
        constructor; [exact Ht|by apply IH].
Qed.

(** ** Links of the individual converter *)

(** X6. An item of the individual converter starts with its
    ["has_parent"] link to the matched parent, carries at most one more
    link, and never links twice to the same target: the extra link is
    "relates_to" the safety goal only when that is not already the parent,
    or "verifies" an existing test item other than the parent.  Its
    children list is empty. *)
Theorem individual_links (self : Individual.converter) (req : requirement)
    (parent_id chapter : string) (subchapter : option string) (it : linked_item) :
  Individual.create_workitem_format self req parent_id chapter subchapter = Ok it ->
  exists parent_link extra,
    links it = parent_link :: extra
    /\ target_id parent_link = parent_id /\ role parent_link = "has_parent"
    /\ length extra <= 1
    /\ Forall (fun l =>
                 target_id l <> parent_id
                 /\ ((role l = "relates_to" /\ target_id l = "Python/FCTS-9155"
                      /\ req_category req = Some "Safety")
                     \/ (role l = "verifies"
                         /\ odict_mem (Individual.existing_workitems self) (target_id l) = true
                         /\ target_id l ∈ Individual.test_items
                         /\ req_category req = Some "Testing"))) extra
    /\ NoDup (map target_id (links it))
    /\ children it = [].
Proof.
  unfold Individual.create_workitem_format. intros H.
  apply bind_Ok_inv in H as (wi & _ & H). apply Ok_inj in H. subst it.
  cbn [links children].
  eexists _, _. split; [reflexivity|]. split; [reflexivity|]. split; [reflexivity|].
  match goal with
  | |- context [length ?e] => set (extra := e)
  end.
  assert (length extra <= 1
          /\ Forall (fun l =>
                 target_id l <> parent_id
                 /\ ((role l = "relates_to" /\ target_id l = "Python/FCTS-9155"
                      /\ req_category req = Some "Safety")
                     \/ (role l = "verifies"
                         /\ odict_mem (Individual.existing_workitems self) (target_id l) = true
                         /\ target_id l ∈ Individual.test_items
                         /\ req_category req = Some "Testing"))) extra) as [Hlen HF].
  { subst extra.
    destruct (req_category req) as [c|]; cbn [from_option id].
    - destruct (String.eqb_spec c "Safety") as [->|Hns].
      + destruct (String.eqb_spec parent_id "Python/FCTS-9155") as [->|Hnp];
          cbn [andb negb].
        * change (String.eqb "Safety" "Testing") with false. cbn iota.
          split; [simpl; lia|constructor].
        * split; [simpl; lia|]. constructor; [|constructor].
          cbn [target_id role]. split; [congruence|]. left. by repeat split.
      + cbn [andb].
        destruct (String.eqb_spec c "Testing") as [->|Hnt]; [|split; [simpl; lia|constructor]].
        destruct (List.find _ Individual.test_items) as [tid|] eqn:Hf;
          [|split; [simpl; lia|constructor]].
        split; [simpl; lia|]. constructor; [|constructor].
        cbn [target_id role].
        pose proof (find_true _ _ _ Hf) as Ht. apply andb_prop in Ht as [Hne Hmem].
        apply negb_true_iff in Hne.
        split; [intros ->; by rewrite String.eqb_refl in Hne|].
        right. split; [reflexivity|]. split; [exact Hmem|].
        split; [by eapply find_in|reflexivity].
    - change (String.eqb "" "Safety") with false.
      change (String.eqb "" "Testing") with false. cbn [andb]. cbn iota.
      split; [simpl; lia|constructor]. }
  split; [exact Hlen|]. split; [exact HF|]. split; [|done].
  cbn [map target_id]. constructor.
  - intros Hin. apply list_elem_of_fmap in Hin as (l & Hl & Hin).
    rewrite Forall_forall in HF. destruct (HF _ Hin) as [Hne _]. congruence.
  - destruct extra as [|l [|l' extra]]; simpl in Hlen; try lia.
    + constructor.
    + simpl. constructor; [by intros ?%elem_of_nil|constructor].
Qed.

Lemma individual_links_witness :
  exists it,
    Individual.create_workitem_format sample_individual
      (sample_requirement "BR-3" "Testing" "Low") "Python/FCTS-9159"
      "10. Verification and Validation" None = Ok it
    /\ NoDup (map target_id (links it)).
Proof.
  eexists. split; [reflexivity|].
  destruct (individual_links sample_individual
              (sample_requirement "BR-3" "Testing" "Low") "Python/FCTS-9159"
              "10. Verification and Validation" None _ eq_refl)
    as (pl & extra & _ & _ & _ & _ & _ & Hnd & _).
  exact Hnd.
Defined.

(** ** Traversal of the individual converter *)

Lemma fold_left_append_map {A B} (f : A -> B) (l : list A) (acc : list B) :
  fold_left (fun acc x => acc ++ [f x]) l acc = acc ++ map f l.
Proof.
  revert acc. induction l as [|x l IH]; intros acc; simpl.
  - by rewrite app_nil_r.
  - by rewrite IH, <- app_assoc.
Qed.

Lemma extract_subchapters_loop (h : string) (ss : list subchapter)
    (acc : list Individual.context) :
  fold_left
    (fun acc subchapter =>
       let subchapter_heading := default "" (sub_heading subchapter) in
       match sub_workitems subchapter with
       | Some workitems =>
           fold_left
             (fun acc req => acc ++ [(req, h, Some subchapter_heading)])
             workitems acc
       | None => acc
       end)
    ss acc
  = acc ++ concat
             (map (fun s =>
                     map (fun r => (r, h, Some (default "" (sub_heading s))))
                       (default [] (sub_workitems s)))
                ss).
Proof.
  revert acc. induction ss as [|s ss IHs]; intros acc; simpl.
  - by rewrite app_nil_r.
  - rewrite IHs. destruct (sub_workitems s) as [ws|]; simpl.
    + rewrite (fold_left_append_map
                 (fun r => (r, h, Some (default "" (sub_heading s))))).
      by rewrite <- app_assoc.
    + done.
Qed.

Lemma extract_loop (cs : list chapter) (acc : list Individual.context) :
  for_each
    (fun requirements_with_context chapter =>
       let chapter_heading := default "" (ch_heading chapter) in
       let requirements_with_context :=
         match ch_workitems chapter with
         | Some workitems =>
             fold_left (fun acc req => acc ++ [(req, chapter_heading, None)])
               workitems requirements_with_context
         | None => requirements_with_context
         end in
       mret
         (fold_left
            (fun acc subchapter =>
               let subchapter_heading := default "" (sub_heading subchapter) in
               match sub_workitems subchapter with
               | Some workitems =>
                   fold_left
                     (fun acc req =>
                        acc ++ [(req, chapter_heading, Some subchapter_heading)])
                     workitems acc
               | None => acc
               end)
            (default [] (ch_subchapters chapter)) requirements_with_context))
    cs acc
  = Ok (acc ++ contexts_in_order cs).
Proof.
  revert acc. induction cs as [|c cs IH]; intros acc.
  - unfold contexts_in_order. simpl. by rewrite app_nil_r.
  - cbn [for_each]. cbv zeta. cbn [mret result_ret].
    rewrite IH. f_equal. unfold contexts_in_order. cbn [map concat].
    rewrite app_assoc. f_equal. unfold chapter_contexts. cbv zeta.
    rewrite extract_subchapters_loop, app_assoc. f_equal.
    destruct (ch_workitems c) as [ws|]; simpl.
    + apply (fold_left_append_map (fun r => (r, default "" (ch_heading c), None : option string))).
    + by rewrite app_nil_r.
Qed.

Lemma contexts_requirements (cs : list chapter) :
  map (fun ctx : Individual.context => fst (fst ctx)) (contexts_in_order cs)
  = requirements_in_order cs.
Proof.
  unfold contexts_in_order, requirements_in_order.
  induction cs as [|c cs IH]; simpl; [done|].
  rewrite map_app, IH. f_equal.
  unfold chapter_contexts, chapter_requirements.
  rewrite map_app, map_map. simpl. rewrite map_id. f_equal.
  induction (default [] (ch_subchapters c)) as [|s ss IHs]; simpl; [done|].
  rewrite map_app, IHs, map_map. simpl. by rewrite map_id.
Qed.

Lemma iter_chapters_of (data : brake_data) (cs : list chapter) :
  iter_chapters
    (default (ChaptersList [])
       (doc_chapters (default empty_document (data_document data)))) = Ok cs ->
  cs = chapters_of data.
Proof.
  unfold chapters_of. destruct (data_document data) as [doc|]; simpl.
  - destruct (doc_chapters doc) as [[?|]|]; simpl; by intros [= <-].
  - by intros [= <-].
Qed.

Lemma iter_chapters_walkable (data : brake_data) :
  walkable data ->
  iter_chapters
    (default (ChaptersList [])
       (doc_chapters (default empty_document (data_document data))))
  = Ok (chapters_of data).
Proof.
  unfold chapters_of, walkable. intros Hw.
  destruct (data_document data) as [doc|]; simpl; [|done].
  specialize (Hw doc eq_refl). by destruct (doc_chapters doc) as [[?|]|].
Qed.

(** X7. The individual converter walks the tree in reading order: the
    tuples it extracts are the work items with the heading of their
    chapter and, for a subchapter's items, of their subchapter; it emits
    one item per tuple, built under the parent matched to these headings,
    so the output has as many items as the tree has work items. *)
Theorem individual_traversal (self : Individual.converter) (data : brake_data) :
  let cs := chapters_of data in
  (forall ctxs,
      Individual.extract_requirements_with_context data = Ok ctxs ->
      ctxs = contexts_in_order cs
      /\ map (fun ctx : Individual.context => fst (fst ctx)) ctxs
         = requirements_in_order cs)
  /\ (forall items,
      Individual.convert_requirements self data = Ok items ->
      Forall2 (individual_built self) (contexts_in_order cs) items
      /\ length items = total_workitems cs)
  /\ (walkable data -> Forall printable (requirements_in_order cs) ->
      exists items, Individual.convert_requirements self data = Ok items).
Proof.
  intros cs.
  assert (forall ctxs,
             Individual.extract_requirements_with_context data = Ok ctxs ->
             ctxs = contexts_in_order cs) as Hextract.
  { intros ctxs H. unfold Individual.extract_requirements_with_context in H.
    apply bind_Ok_inv in H as (cs' & Hcs & H).
    apply iter_chapters_of in Hcs. subst cs'. fold cs in H.
    rewrite extract_loop in H. by injection H as <-. }
  split; [|split].
  - intros ctxs H. rewrite (Hextract _ H). split; [done|apply contexts_requirements].
  - intros items H. unfold Individual.convert_requirements in H.
    apply bind_Ok_inv in H as (ctxs & Hctxs & H).
    apply Hextract in Hctxs. subst ctxs.
    eapply for_each_singles with (R := individual_built self) in H as (ys & -> & HF).
    + split; [exact HF|]. apply Forall2_length in HF. simpl.
      by rewrite <- HF, <- length_requirements_in_order, <- contexts_requirements,
        length_map.
    + intros acc [[req ch] sub] acc' Hb.
      apply bind_Ok_inv in Hb as (w & Hw & Hb).
      apply bind_Ok_inv in Hb as (? & _ & Hb).
      apply bind_Ok_inv in Hb as (? & _ & Hb).
      apply Ok_inj in Hb. subst acc'. by exists w.
  - intros Hw Hp. unfold Individual.convert_requirements,
      Individual.extract_requirements_with_context.
    rewrite (iter_chapters_walkable _ Hw). fold cs.
    cbn [mbind result_mbind result_bind]. rewrite extract_loop.
    cbn [result_bind app].
    eapply for_each_returns
      with (P := fun ctx : Individual.context => printable (fst (fst ctx))).
    + intros acc [[req ch] sub] ([id Hid] & [t Ht] & [de Hd]). simpl in *.
      unfold Individual.create_workitem_format, nested_work_item.
      rewrite Hid, Ht, Hd. simpl. by eexists.
    + rewrite <- contexts_requirements in Hp.
      exact (proj1 (List.Forall_map _ _ _) Hp).
Qed.

Lemma individual_traversal_witness :
  exists items,
    Individual.convert_requirements sample_individual sample_data = Ok items
    /\ length items = 3
    /\ map (fun it => map target_id (links it)) items
       = [["Python/FCTS-9157"; "Python/FCTS-9155"];
          ["Python/FCTS-9157"; "Python/FCTS-9155"];
          ["Python/FCTS-9157"; "Python/FCTS-9159"]].
Proof.
  destruct (proj2 (proj2 (individual_traversal sample_individual sample_data)))
    as [items Hitems].
  - intros doc [= <-]. discriminate.
  - repeat constructor; by eexists.
  - exists items. split; [exact Hitems|].
    split.
    + apply (proj1 (proj2 (individual_traversal sample_individual sample_data))
               items Hitems).
    + vm_compute in Hitems. by injection Hitems as <-.
Defined.

(** ** Runs of the no-headings converter *)

Lemma filter_all_requirements (self : NoHeadings.converter) rs items :
  Forall2 (flat_built self) rs items ->
  List.filter (fun w => String.eqb (fi_type w) "requirement") items = items.
Proof.
  induction 1 as [|r it rs items (t & o & Hb) _ IH]; simpl; [done|].
  unfold NoHeadings.create_requirement_workitem in Hb.
  rewrite (flat_requirement_typed _ _ _ _ _ Hb). simpl. by rewrite IH.
Qed.

Lemma no_headings_body_chapters (self : NoHeadings.converter) data o self' :
  NoHeadings.convert_body self data = Ok (o, self') ->
  exists n',
    NoHeadings.process_chapters self (chapters_of data) = Ok n'
    /\ NoHeadings.out_work_items o = NoHeadings.work_items n'
    /\ NoHeadings.total_items (NoHeadings.meta o) = length (NoHeadings.work_items n')
    /\ NoHeadings.total_requirements (NoHeadings.meta o)
       = length (List.filter (fun w => String.eqb (fi_type w) "requirement")
                   (NoHeadings.work_items n')).
Proof.
  unfold NoHeadings.convert_body. intros H.
  apply bind_Ok_inv in H as (doc & Hdoc & H).
  apply bind_Ok_inv in H as (cv & Hcv & H).
  apply bind_Ok_inv in H as (cs & Hcs & H).
  apply bind_Ok_inv in H as (n' & Hn & H).
  apply bind_Ok_inv in H as (title & _ & H).
  apply bind_Ok_inv in H as (project & _ & H).
  apply bind_Ok_inv in H as (space & _ & H).
  apply bind_Ok_inv in H as (version & _ & H).
  apply Ok_inj in H. injection H as <- <-.
  exists n'. split; [|by repeat split].
  unfold chapters_of.
  destruct (data_document data) as [doc'|]; [|discriminate].
  injection Hdoc as ->.
  destruct (doc_chapters doc) as [v|]; [|discriminate].
  injection Hcv as ->. destruct cv as [cs'|]; [|discriminate].
  by injection Hcs as ->.
Qed.

(** X8. Whenever the no-headings converter writes a file from a fresh
    converter, the file holds one requirement item per work item of the
    tree, in reading order and nothing else, so [total_requirements],
    [total_items] and the number of work items in the tree agree. *)
Theorem no_headings_output (now : string) (custom : option (odict string))
    (input : input_file brake_data) (o : NoHeadings.output) :
  written (NoHeadings.convert (NoHeadings.new_converter now custom) input) = Some o ->
  exists data,
    input = Json data
    /\ fst (validate_input data) = true
    /\ Forall2 (flat_built (NoHeadings.new_converter now custom))
         (requirements_in_order (chapters_of data)) (NoHeadings.out_work_items o)
    /\ NoHeadings.total_items (NoHeadings.meta o) = total_workitems (chapters_of data)
    /\ NoHeadings.total_requirements (NoHeadings.meta o)
       = NoHeadings.total_items (NoHeadings.meta o).
Proof.
  unfold NoHeadings.convert.
  destruct input as [| |data]; simpl; try discriminate.
  destruct (validate_input data) as [[|] msgs] eqn:Hv; simpl; [|discriminate].
  destruct (NoHeadings.convert_body _ data) as [[o' self']|] eqn:Hb; simpl;
    [|discriminate].
  intros [= ->]. exists data. split; [done|]. split; [by rewrite Hv|].
  apply no_headings_body_chapters in Hb as (n' & Hn & Hw & Ht & Hr).
  unfold NoHeadings.process_chapters in Hn.
  apply process_chapters_items in Hn as (items & Hitems & HF).
  simpl in Hitems. rewrite Hw, Ht, Hr, Hitems.
  split; [exact HF|]. split.
  - apply Forall2_length in HF. by rewrite <- HF, length_requirements_in_order.
  - by rewrite (filter_all_requirements _ _ _ HF).
Qed.

Lemma no_headings_output_witness :
  exists o,
    written (NoHeadings.convert (NoHeadings.new_converter "T" None) (Json sample_data))
    = Some o
    /\ NoHeadings.total_items (NoHeadings.meta o) = 3
    /\ NoHeadings.total_requirements (NoHeadings.meta o) = 3.
Proof.
  eexists. split; [reflexivity|].
  destruct (no_headings_output "T" None (Json sample_data) _ eq_refl)
    as (data & [= <-] & _ & _ & Ht & Hr).
  split; [exact Ht|]. rewrite Hr. exact Ht.
Defined.



(** ** Insertion-ordered dicts and the custom heading map *)

Lemma odict_get_set_eq {V} (d : odict V) k v :
  odict_get (odict_set d k v) k = Some v.
Proof.
  induction d as [|[k' v'] d IH]; simpl.
  - by rewrite String.eqb_refl.
  - destruct (String.eqb k' k) eqn:Hk; simpl; by rewrite Hk.
Qed.

Lemma odict_get_set_ne {V} (d : odict V) k k' v :
  k <> k' -> odict_get (odict_set d k v) k' = odict_get d k'.
Proof.
  intros Hne. induction d as [|[k0 v0] d IH]; simpl.
  - by destruct (String.eqb_spec k k').
  - destruct (String.eqb_spec k0 k) as [->|Hk0]; simpl.
    + by destruct (String.eqb_spec k k').
    + by rewrite IH.
Qed.

Lemma odict_set_keys {V} (d : odict V) k v :
  map fst (odict_set d k v)
  = if odict_mem d k then map fst d else map fst d ++ [k].
Proof.
  unfold odict_mem. induction d as [|[k' v'] d IH]; simpl; [done|].
  destruct (String.eqb k' k); simpl; [done|].
  rewrite IH. by destruct (odict_get d k).
Qed.

Lemma odict_update_get {V} (other d : odict V) k :
  odict_get (odict_update d other) k
  = match odict_get (rev other) k with
    | Some v => Some v
    | None => odict_get d k
    end.
Proof.
  unfold odict_update. revert d.
  induction other as [|[k' v'] other IH]; intros d; simpl; [done|].
  rewrite IH.
  assert (odict_get (rev other ++ [(k', v')]) k
          = match odict_get (rev other) k with
            | Some v => Some v
            | None => if String.eqb k' k then Some v' else None
            end) as ->.
  { generalize (rev other) as l. intros l.
    induction l as [|[k0 v0] l IHl]; simpl; [done|].
    destruct (String.eqb k0 k); [done|exact IHl]. }
  destruct (odict_get (rev other) k); [done|].
  destruct (String.eqb_spec k' k) as [->|Hne].
  - apply odict_get_set_eq.
  - by apply odict_get_set_ne.
Qed.

Lemma odict_update_keys {V} (other d : odict V) :
  exists extra, map fst (odict_update d other) = map fst d ++ extra.
Proof.
  unfold odict_update. revert d.
  induction other as [|[k v] other IH]; intros d; simpl.
  - exists []. by rewrite app_nil_r.
  - destruct (IH (odict_set d k v)) as [extra ->].
    rewrite odict_set_keys. destruct (odict_mem d k).
    + by exists extra.
    + exists (k :: extra). by rewrite <- app_assoc.
Qed.

(** X10. A custom heading map is laid over the built-in table the way
    [dict.update] does it: the built-in titles keep their places, new
    titles go to the end, and a title looked up afterwards has the ID of
    its last custom entry if there is one and its built-in ID otherwise.
    [get_heading_id] therefore prefers a custom ID on an exact title
    match. *)
Theorem custom_heading_map (now : string) (custom : odict string) (title : string) :
  let self := NoHeadings.new_converter now (Some custom) in
  (exists extra,
      map fst (NoHeadings.heading_ids self)
      = map fst NoHeadings.default_heading_ids ++ extra)
  /\ odict_get (NoHeadings.heading_ids self) title
     = match odict_get (rev custom) title with
       | Some id => Some id
       | None => odict_get NoHeadings.default_heading_ids title
       end
  /\ (forall id, odict_get (rev custom) title = Some id ->
                 NoHeadings.get_heading_id self title = id)
  /\ (forall id, odict_get (rev custom) title = None ->
                 odict_get NoHeadings.default_heading_ids title = Some id ->
                 NoHeadings.get_heading_id self title = id).
Proof.
  intros self. subst self. cbn [NoHeadings.new_converter NoHeadings.heading_ids].
  split; [apply odict_update_keys|].
  split; [apply odict_update_get|].
  unfold NoHeadings.get_heading_id, NoHeadings.new_converter.
  cbn [NoHeadings.heading_ids].
  rewrite odict_update_get.
  split.
  - by intros id ->.
  - by intros id -> ->.
Qed.

Lemma custom_heading_map_witness :
  NoHeadings.get_heading_id
    (NoHeadings.new_converter "T"
       (Some [("5. Safety Requirements", "Python/MY-1");
              ("11. Glossary", "Python/MY-2");
              ("5. Safety Requirements", "Python/MY-3")]))
    "5. Safety Requirements"
  = "Python/MY-3"
  /\ NoHeadings.get_heading_id
       (NoHeadings.new_converter "T" (Some [("11. Glossary", "Python/MY-2")]))
       "9.2 Safety Standards"
     = "Python/FCTS-REG-SAFE".
Proof.
  split.
  - apply (proj1 (proj2 (proj2 (custom_heading_map "T" _ "5. Safety Requirements")))).
    reflexivity.
  - apply (proj2 (proj2 (proj2 (custom_heading_map "T" _ "9.2 Safety Standards"))));
      reflexivity.
Defined.

(** ** Heading numbers of the synthetic converter *)

Lemma str_of_nat_inj (n m : nat) : str_of_nat n = str_of_nat m -> n = m.
Proof.
  unfold str_of_nat. intros H.
  assert (forall k, Nat.to_uint k <> Nil) as Hnn.
  { intros k. rewrite <- (Unsigned.of_to k) at 1. rewrite Unsigned.to_of.
    apply unorm_nonnil. }
  apply (f_equal NilZero.uint_of_string) in H.
  rewrite !NilZero.usu in H by apply Hnn.
  injection H as H. by apply Unsigned.to_uint_inj.
Qed.

Lemma head_id_inj (n m : nat) : head_id n = head_id m -> n = m.
Proof.
  unfold head_id. intros H. apply str_of_nat_inj.
  repeat (rewrite append_cons in H; injection H as H). exact H.
Qed.

Lemma NoDup_head_ids (start len : nat) : NoDup (map head_id (seq start len)).
Proof.
  apply NoDup_fmap_2; [intros ? ?; apply head_id_inj|]. apply NoDup_seq.
Qed.

Lemma heading_ids_of_app (a b : list flat_item) :
  heading_ids_of (a ++ b) = heading_ids_of a ++ heading_ids_of b.
Proof. unfold heading_ids_of. by rewrite List.filter_app, map_app. Qed.

Lemma count_type_app ty (a b : list flat_item) :
  Synthetic.count_type ty (a ++ b)
  = Synthetic.count_type ty a + Synthetic.count_type ty b.
Proof. unfold Synthetic.count_type. by rewrite List.filter_app, length_app. Qed.

Lemma count_headings (items : list flat_item) :
  Synthetic.count_type "heading" items = length (heading_ids_of items).
Proof. unfold Synthetic.count_type, heading_ids_of. by rewrite length_map. Qed.

Lemma well_linked_mono (items : list flat_item) :
  forall known known',
    (forall p, p ∈ known -> p ∈ known') ->
    well_linked known items -> well_linked known' items.
Proof.
  induction items as [|it items IH]; intros known known' Hsub; simpl; [done|].
  intros [Hl Hrest]. split.
  - eapply Forall_impl; [exact Hl|]. intros l. apply Hsub.
  - eapply IH; [|exact Hrest].
    destruct (String.eqb (fi_type it) "heading"); [|exact Hsub].
    intros p [->|Hp]%elem_of_cons; [by left|]. right. by apply Hsub.
Qed.

Lemma well_linked_app (a b : list flat_item) :
  forall known,
    well_linked known a ->
    well_linked (heading_ids_of a ++ known) b ->
    well_linked known (a ++ b).
Proof.
  induction a as [|it a IH]; intros known; simpl; [by intros _|].
  intros [Hl Ha] Hb. split; [exact Hl|].
  apply IH; [exact Ha|].
  eapply well_linked_mono; [|exact Hb].
  unfold heading_ids_of. simpl.
  destruct (String.eqb (fi_type it) "heading"); simpl; [|done].
  intros p. rewrite !elem_of_app, !elem_of_cons, elem_of_app. tauto.
Qed.

Lemma block_nil c0 parents : block c0 parents 0 0 [].
Proof. repeat split; constructor. Qed.

(** Two runs in a row make one run, when the second links to the
    parents of the first or to the headings of the first. *)
Lemma block_app c0 parents parents' n1 h1 n2 h2 a b :
  block c0 parents n1 h1 a ->
  block (c0 + h1) parents' n2 h2 b ->
  (forall p, p ∈ parents' -> p ∈ parents \/ p ∈ heading_ids_of a) ->
  block c0 parents (n1 + n2) (h1 + h2) (a ++ b).
Proof.
  intros (Hida & Hna & Hta & Hla) (Hidb & Hnb & Htb & Hlb) Hp.
  split; [|split; [|split]].
  - rewrite heading_ids_of_app, Hida, Hidb, seq_app, map_app.
    do 3 f_equal. lia.
  - by rewrite count_type_app, Hna, Hnb.
  - by apply Forall_app.
  - intros known Hk. apply well_linked_app; [by apply Hla|].
    apply Hlb. intros p Hin. apply elem_of_app.
    destruct (Hp p Hin) as [?|?]; [right; by apply Hk|by left].
Qed.

Lemma block_heading c0 parents (h : flat_item) :
  fi_type h = "heading" ->
  fi_id h = head_id (c0 + 1) ->
  Forall (fun l => target_id l ∈ parents) (default [] (fi_links h)) ->
  block c0 parents 0 1 [h].
Proof.
  intros Ht Hid Hl. split; [|split; [|split]].
  - unfold heading_ids_of. cbn [List.filter]. rewrite Ht. simpl. by rewrite Hid.
  - unfold Synthetic.count_type. cbn [List.filter]. by rewrite Ht.
  - constructor; [by right|constructor].
  - intros known Hk. simpl. split; [|done].
    eapply Forall_impl; [exact Hl|]. intros l. apply Hk.
Qed.

Lemma block_requirements c0 parent (items : list flat_item) :
  Forall (fun it => fi_type it = "requirement"
                    /\ exists d, fi_links it = Some [Synthetic.has_parent parent d])
    items ->
  block c0 [parent] (length items) 0 items.
Proof.
  induction 1 as [|it items [Ht [d Hl]] _ (Hid & Hn & Hty & Hwl)].
  - apply block_nil.
  - split; [|split; [|split]].
    + unfold heading_ids_of in *. cbn [List.filter]. by rewrite Ht.
    + unfold Synthetic.count_type in *. cbn [List.filter]. rewrite Ht. simpl.
      by rewrite Hn.
    + constructor; [by left|exact Hty].
    + intros known Hk. cbn [well_linked]. rewrite Hl, Ht. simpl. split.
      * constructor; [|constructor]. apply Hk. by left.
      * by apply Hwl.
Qed.

Lemma flat_requirement_links d r l o it :
  flat_requirement d r l o = Ok it ->
  fi_type it = "requirement" /\ fi_links it = Some [l].
Proof.
  unfold flat_requirement. intros H.
  repeat (apply bind_Ok_inv in H as (? & _ & H)).
  apply Ok_inj in H. by subst it.
Qed.

Lemma Forall2_right {A B} (P : B -> Prop) (l : list A) (ys : list B) :
  Forall2 (fun _ y => P y) l ys -> Forall P ys /\ length ys = length l.
Proof.
  induction 1 as [|x y l ys Hy _ [IH1 IH2]]; [by split|].
  split; [by constructor|simpl; by rewrite IH2].
Qed.

Lemma length_enumerate {A} (l : list A) start : length (enumerate start l) = length l.
Proof.
  revert start. induction l as [|x l IH]; intros start; simpl; [done|].
  by rewrite IH.
Qed.

Section SyntheticBlocks.
Variable self : Synthetic.converter.

Lemma synthetic_append_block parent prefix ws acc out c0 :
  Synthetic.append_requirements self parent prefix ws acc = Ok out ->
  exists new, out = acc ++ new /\ block c0 [parent] (length ws) 0 new.
Proof.
  unfold Synthetic.append_requirements. intros H.
  eapply for_each_singles
    with (R := fun (_ : nat * requirement) it =>
                 fi_type it = "requirement"
                 /\ exists d, fi_links it = Some [Synthetic.has_parent parent d])
    in H as (new & -> & HF).
  - exists new. split; [done|].
    apply Forall2_right in HF as [HF Hlen].
    rewrite length_enumerate in Hlen. rewrite <- Hlen.
    by apply block_requirements.
  - intros a [idx w] a' Hb.
    apply bind_Ok_inv in Hb as (it & Hit & Hb). apply Ok_inj in Hb. subst a'.
    exists it. split; [done|].
    apply flat_requirement_links in Hit as [Ht Hl]. split; [done|]. by eexists.
Qed.

Lemma process_subchapter_block s cn sn parent items self' :
  Synthetic.process_subchapter self s cn sn parent = Ok (items, self') ->
  block (Synthetic.heading_counter self) [parent]
    (length (default [] (sub_workitems s))) 1 items
  /\ Synthetic.heading_counter self' = Synthetic.heading_counter self + 1
  /\ Synthetic.document_id self' = Synthetic.document_id self
  /\ Synthetic.timestamp self' = Synthetic.timestamp self
  /\ Synthetic.work_items self' = Synthetic.work_items self.
Proof.
  unfold Synthetic.process_subchapter, Synthetic.generate_heading_id. intros H.
  apply bind_Ok_inv in H as (heading & _ & H).
  apply bind_Ok_inv in H as (its & Hits & H).
  apply Ok_inj in H. injection H as <- <-.
  split; [|by repeat split].
  set (c := Synthetic.heading_counter self) in *.
  set (h := Synthetic.heading_item _ _ _ _ _ _ _) in Hits.
  assert (block c [parent] 0 1 [h]) as Hh.
  { apply block_heading; [done|done|]. simpl.
    constructor; [by left|constructor]. }
  destruct (sub_workitems s) as [ws|]; cbn [from_option id length].
  - apply (synthetic_append_block _ _ _ _ _ (c + 1)) in Hits as (new & -> & Hnew).
    apply (block_app c [parent] [head_id (c + 1)] 0 1 (length ws) 0 [h] new Hh Hnew).
    intros p ->%list_elem_of_singleton. right.
    destruct Hh as [-> _]. by left.
  - apply Ok_inj in Hits. by subst its.
Qed.

End SyntheticBlocks.

(** The loop of [process_chapter] over its subchapters. *)
Lemma subchapter_loop_block (cn : nat) (parent : string) (subs : list subchapter) :
  forall start items self out self',
    for_each
      (fun '(items, self) '(sub_idx, subchapter) =>
         '(sub_items, self) ←
           Synthetic.process_subchapter self subchapter cn sub_idx parent;
         mret (items ++ sub_items, self))
      (enumerate start subs) (items, self) = Ok (out, self') ->
    exists new,
      out = items ++ new
      /\ block (Synthetic.heading_counter self) [parent]
           (length (concat (map (fun s => default [] (sub_workitems s)) subs)))
           (length subs) new
      /\ Synthetic.heading_counter self'
         = Synthetic.heading_counter self + length subs
      /\ Synthetic.document_id self' = Synthetic.document_id self
      /\ Synthetic.timestamp self' = Synthetic.timestamp self
      /\ Synthetic.work_items self' = Synthetic.work_items self.
Proof.
  induction subs as [|s subs IH]; intros start items self out self' H.
  - simpl in H. injection H as <- <-. exists []. rewrite app_nil_r.
    split; [done|]. split; [apply block_nil|]. repeat split. simpl. lia.
  - cbn [enumerate for_each] in H.
    destruct (Synthetic.process_subchapter self s cn start parent)
      as [[sub_items self1]|] eqn:Hs; [|discriminate].
    cbn [mbind result_mbind result_bind mret result_ret] in H.
    apply IH in H as (new & -> & Hnew & Hc & Hd & Ht & Hw).
    apply process_subchapter_block in Hs as (Hb & Hc1 & Hd1 & Ht1 & Hw1).
    exists (sub_items ++ new). rewrite app_assoc. split; [done|].
    split.
    + cbn [map concat length]. rewrite length_app.
      rewrite Hc1 in Hnew.
      apply (block_app _ [parent] [parent] _ 1 _ _ _ _ Hb Hnew).
      intros p Hp. by left.
    + rewrite Hc, Hc1, Hd, Hd1, Ht, Ht1, Hw, Hw1. cbn [length].
      repeat split. lia.
Qed.

Lemma process_chapter_block (self : Synthetic.converter) c cn parent items self' :
  Synthetic.process_chapter self c cn parent = Ok (items, self') ->
  block (Synthetic.heading_counter self) (parents_of parent)
    (length (chapter_requirements c))
    (1 + length (default [] (ch_subchapters c))) items
  /\ Synthetic.heading_counter self'
     = Synthetic.heading_counter self + 1 + length (default [] (ch_subchapters c))
  /\ Synthetic.document_id self' = Synthetic.document_id self
  /\ Synthetic.timestamp self' = Synthetic.timestamp self
  /\ Synthetic.work_items self' = Synthetic.work_items self.
Proof.
  unfold Synthetic.process_chapter, Synthetic.generate_heading_id. intros H.
  apply bind_Ok_inv in H as (heading & _ & H).
  apply bind_Ok_inv in H as (own & Hown & H).
  set (c0 := Synthetic.heading_counter self) in *.
  set (self1 := Synthetic.set_heading_counter self (c0 + 1)) in *.
  set (h := Synthetic.heading_item _ _ _ _ _ _ _) in Hown.
  assert (block c0 (parents_of parent) 0 1 [h]) as Hh.
  { apply block_heading; [done|done|]. unfold parents_of. simpl.
    destruct (truthy parent); simpl; [|constructor].
    constructor; [by left|constructor]. }
  assert (heading_ids_of [h] = [head_id (c0 + 1)]) as Hhid by (by destruct Hh as [-> _]).
  assert (exists new,
             own = [h] ++ new
             /\ block (c0 + 1) [head_id (c0 + 1)]
                  (length (default [] (ch_workitems c))) 0 new)
    as (new & -> & Hnew).
  { destruct (ch_workitems c) as [[|w ws]|].
    - apply Ok_inj in Hown. subst own. exists []. split; [done|apply block_nil].
    - exact (synthetic_append_block _ _ _ (w :: ws) _ _ (c0 + 1) Hown).
    - apply Ok_inj in Hown. subst own. exists []. split; [done|apply block_nil]. }
  pose proof (block_app c0 (parents_of parent) [head_id (c0 + 1)] 0 1 _ 0
                [h] new Hh Hnew) as Hown'.
  unfold chapter_requirements. rewrite length_app.
  destruct (ch_subchapters c) as [subs|]; cbn [from_option id].
  - apply subchapter_loop_block in H as (sub_items & -> & Hsubs & Hc & Hd & Ht & Hw).
    split; [|by rewrite Hc; repeat split; simpl; try lia].
    cbn [Synthetic.heading_counter self1 Synthetic.set_heading_counter] in Hsubs.
    replace (1 + length subs) with ((1 + 0) + length subs) by lia.
    apply (block_app c0 (parents_of parent) [head_id (c0 + 1)]
             _ (1 + 0) _ _ ([h] ++ new) sub_items).
    + apply Hown'. intros p ->%list_elem_of_singleton. right. rewrite Hhid. by left.
    + replace (c0 + (1 + 0)) with (c0 + 1) by lia. exact Hsubs.
    + intros p ->%list_elem_of_singleton. right.
      rewrite heading_ids_of_app, Hhid. by left.
  - apply Ok_inj in H. injection H as <- <-.
    split; [|by repeat split; simpl; try lia].
    cbn [map concat length]. rewrite Nat.add_0_r.
    apply Hown'. intros p ->%list_elem_of_singleton. right. rewrite Hhid. by left.
Qed.

Lemma length_requirements_in_order_chapter (c : chapter) :
  length (chapter_requirements c)
  = length (default [] (ch_workitems c))
    + list_sum (map (fun s => length (default [] (sub_workitems s)))
                  (default [] (ch_subchapters c))).
Proof.
  unfold chapter_requirements. rewrite length_app. f_equal.
  induction (default [] (ch_subchapters c)) as [|s ss IH]; simpl; [done|].
  by rewrite length_app, IH.
Qed.

(** The loop of [convert] over the chapters. *)
Lemma chapter_loop_block (root : string) (cs : list chapter) :
  truthy (Some root) = true ->
  forall start self self',
    for_each
      (fun self '(chapter_num, chapter) =>
         '(items, self) ←
           Synthetic.process_chapter self chapter (chapter_num + 1) (Some root);
         mret (Synthetic.set_work_items self (Synthetic.work_items self ++ items)))
      (enumerate start cs) self = Ok self' ->
    exists new,
      Synthetic.work_items self' = Synthetic.work_items self ++ new
      /\ block (Synthetic.heading_counter self) [root] (total_workitems cs)
           (length cs + total_subchapters cs) new
      /\ Synthetic.document_id self' = Synthetic.document_id self
      /\ Synthetic.timestamp self' = Synthetic.timestamp self.
Proof.
  intros Hroot. induction cs as [|c cs IH]; intros start self self' H.
  - simpl in H. injection H as <-. exists []. rewrite app_nil_r.
    split; [done|]. split; [apply block_nil|done].
  - cbn [enumerate for_each] in H.
    destruct (Synthetic.process_chapter self c (start + 1) (Some root))
      as [[items self1]|] eqn:Hc; [|discriminate].
    cbn [mbind result_mbind result_bind mret result_ret] in H.
    apply IH in H as (new & Hw & Hnew & Hd & Ht).
    apply process_chapter_block in Hc as (Hb & Hc1 & Hd1 & Ht1 & Hw1).
    cbn [Synthetic.work_items Synthetic.set_work_items Synthetic.heading_counter
           Synthetic.document_id Synthetic.timestamp] in Hw, Hnew, Hd, Ht.
    exists (items ++ new). rewrite Hw, Hw1, app_assoc. split; [done|].
    split; [|by rewrite Hd, Ht].
    unfold parents_of in Hb. rewrite Hroot in Hb. cbn [from_option id] in Hb.
    rewrite Hc1 in Hnew.
    assert (total_workitems (c :: cs)
            = length (chapter_requirements c) + total_workitems cs) as ->.
    { unfold total_workitems. simpl.
      by rewrite length_requirements_in_order_chapter. }
    assert (length (c :: cs) + total_subchapters (c :: cs)
            = (1 + length (default [] (ch_subchapters c)))
              + (length cs + total_subchapters cs)) as ->.
    { unfold total_subchapters. simpl. lia. }
    eapply (block_app _ [root] [root]); [exact Hb| |by left].
    replace (Synthetic.heading_counter self
             + (1 + length (default [] (ch_subchapters c))))
      with (Synthetic.heading_counter self + 1
            + length (default [] (ch_subchapters c))) by lia.
    exact Hnew.
Qed.

(** What [convert] hands to [json.dump]: the items it had, the root
    heading, then the chapters. *)
Lemma convert_body_block (self : Synthetic.converter) data o self' :
  Synthetic.convert_body self data = Ok (o, self') ->
  let cs := chapters_of data in
  exists new,
    Synthetic.out_work_items o = Synthetic.work_items self ++ new
    /\ block (Synthetic.heading_counter self) [] (total_workitems cs)
         (1 + (length cs + total_subchapters cs)) new
    /\ Synthetic.total_items (Synthetic.meta o)
       = length (Synthetic.out_work_items o)
    /\ Synthetic.total_requirements (Synthetic.meta o)
       = Synthetic.count_type "requirement" (Synthetic.out_work_items o)
    /\ Synthetic.total_headings (Synthetic.meta o)
       = Synthetic.count_type "heading" (Synthetic.out_work_items o).
Proof.
  intros H cs. unfold Synthetic.convert_body, Synthetic.generate_heading_id in H.
  apply bind_Ok_inv in H as (doc & Hdoc & H).
  apply bind_Ok_inv in H as (title & _ & H).
  apply bind_Ok_inv in H as (version & _ & H).
  apply bind_Ok_inv in H as (created & _ & H).
  apply bind_Ok_inv in H as (cv & Hcv & H).
  apply bind_Ok_inv in H as (cs' & Hcs & H).
  apply bind_Ok_inv in H as (final & Hloop & H).
  apply bind_Ok_inv in H as (title' & _ & H).
  apply bind_Ok_inv in H as (project & _ & H).
  apply bind_Ok_inv in H as (space & _ & H).
  apply bind_Ok_inv in H as (version' & _ & H).
  apply Ok_inj in H. injection H as <- <-.
  cbn [Synthetic.out_work_items Synthetic.meta Synthetic.total_items
         Synthetic.total_requirements Synthetic.total_headings].
  assert (cs' = cs) as ->.
  { subst cs. unfold chapters_of.
    destruct (data_document data) as [doc'|]; [|discriminate].
    injection Hdoc as ->. destruct (doc_chapters doc) as [v|]; [|discriminate].
    injection Hcv as ->. destruct cv as [l|]; [|discriminate].
    by injection Hcs as ->. }
  set (c0 := Synthetic.heading_counter self) in *.
  apply chapter_loop_block in Hloop as (new & Hw & Hnew & _ & _); [|done].
  cbn [Synthetic.work_items Synthetic.set_work_items Synthetic.heading_counter
         Synthetic.set_heading_counter] in Hw, Hnew.
  set (h := Synthetic.heading_item _ _ _ _ _ _ _) in Hw.
  exists ([h] ++ new). rewrite Hw, <- app_assoc. split; [done|].
  split; [|done].
  assert (block c0 [] 0 1 [h]) as Hh.
  { apply block_heading; [done|done|]. simpl. constructor. }
  eapply (block_app c0 [] [head_id (c0 + 1)] 0 1); [exact Hh|exact Hnew|].
  intros p ->%list_elem_of_singleton. right. destruct Hh as [-> _]. by left.
Qed.

Lemma synthetic_fresh_output (now : string) (input : input_file brake_data)
    (o : Synthetic.output) :
  written (Synthetic.convert (Synthetic.new_converter now) input) = Some o ->
  exists data,
    input = Json data
    /\ block 1000 [] (total_workitems (chapters_of data))
         (1 + (length (chapters_of data) + total_subchapters (chapters_of data)))
         (Synthetic.out_work_items o)
    /\ Synthetic.total_items (Synthetic.meta o) = length (Synthetic.out_work_items o)
    /\ Synthetic.total_requirements (Synthetic.meta o)
       = Synthetic.count_type "requirement" (Synthetic.out_work_items o)
    /\ Synthetic.total_headings (Synthetic.meta o)
       = Synthetic.count_type "heading" (Synthetic.out_work_items o).
Proof.
  unfold Synthetic.convert.
  destruct input as [| |data]; simpl; try discriminate.
  destruct (validate_input data) as [[|] msgs]; simpl; [|discriminate].
  destruct (Synthetic.convert_body _ data) as [[o' self']|] eqn:Hb; simpl;
    [|discriminate].
  intros [= ->]. exists data. split; [done|].
  apply convert_body_block in Hb as (new & Hw & Hnew & Hm).
  change (Synthetic.out_work_items o = new) in Hw.
  split; [|exact Hm]. rewrite Hw. exact Hnew.
Qed.

(** X11. In a file written by a fresh synthetic-headings converter the
    heading items carry the IDs "Python/BR-HEAD-1001",
    "Python/BR-HEAD-1002", ... in the order they appear, without gap, so
    no two headings share an ID. *)
Theorem synthetic_heading_ids (now : string) (input : input_file brake_data)
    (o : Synthetic.output) :
  written (Synthetic.convert (Synthetic.new_converter now) input) = Some o ->
  heading_ids_of (Synthetic.out_work_items o)
  = map head_id (seq 1001 (Synthetic.total_headings (Synthetic.meta o)))
  /\ NoDup (heading_ids_of (Synthetic.out_work_items o)).
Proof.
  intros H.
  apply synthetic_fresh_output in H as (data & _ & (Hid & _) & _ & _ & Hh).
  rewrite Hh, count_headings, Hid, length_map, length_seq.
  split; [done|]. apply NoDup_head_ids.
Qed.

Lemma synthetic_heading_ids_witness :
  exists o,
    written (Synthetic.convert (Synthetic.new_converter "T") (Json sample_data)) = Some o
    /\ heading_ids_of (Synthetic.out_work_items o)
       = ["Python/BR-HEAD-1001"; "Python/BR-HEAD-1002"; "Python/BR-HEAD-1003"].
Proof.
  eexists. split; [reflexivity|].
  rewrite (proj1 (synthetic_heading_ids "T" (Json sample_data) _ eq_refl)).
  reflexivity.
Defined.

(** X12. A file written by a fresh synthetic-headings converter holds one
    heading for the document, one per chapter and one per subchapter, and
    one requirement per work item of the tree; the metadata counts say
    so. *)
Theorem synthetic_counts (now : string) (input : input_file brake_data)
    (o : Synthetic.output) :
  written (Synthetic.convert (Synthetic.new_converter now) input) = Some o ->
  exists data,
    input = Json data
    /\ Synthetic.total_headings (Synthetic.meta o)
       = 1 + length (chapters_of data) + total_subchapters (chapters_of data)
    /\ Synthetic.total_requirements (Synthetic.meta o)
       = total_workitems (chapters_of data).
Proof.
  intros H.
  apply synthetic_fresh_output in H as (data & -> & (Hid & Hn & _) & _ & Hr & Hh).
  exists data. split; [done|].
  rewrite Hh, Hr, count_headings, Hid, length_map, length_seq, Hn.
  split; [lia|done].
Qed.

Lemma synthetic_counts_witness :
  exists o,
    written (Synthetic.convert (Synthetic.new_converter "T") (Json sample_data)) = Some o
    /\ Synthetic.total_headings (Synthetic.meta o) = 3
    /\ Synthetic.total_requirements (Synthetic.meta o) = 3.
Proof.
  eexists. split; [reflexivity|].
  destruct (synthetic_counts "T" (Json sample_data) _ eq_refl)
    as (data & Hd & Hh & Hr).
  injection Hd as <-. split; [exact Hh|exact Hr].
Defined.

Lemma well_linked_targets (items : list flat_item) :
  forall known,
    well_linked known items ->
    Forall (fun it =>
              Forall (fun l => target_id l ∈ known \/ target_id l ∈ heading_ids_of items)
                (default [] (fi_links it))) items.
Proof.
  induction items as [|it items IH]; intros known; simpl; [constructor|].
  intros [Hl Hrest]. constructor.
  - eapply Forall_impl; [exact Hl|]. intros l ?. by left.
  - apply IH in Hrest. eapply Forall_impl; [exact Hrest|].
    intros it' Hit'. eapply Forall_impl; [exact Hit'|].
    intros l. unfold heading_ids_of. cbn [List.filter].
    destruct (String.eqb (fi_type it) "heading"); cbn [map].
    + rewrite !elem_of_cons. tauto.
    + tauto.
Qed.

(** X13. In a file written by a fresh synthetic-headings converter every
    link resolves inside the file: each link of each item points to a
    heading item that comes earlier in the list. *)
Theorem synthetic_links_resolve (now : string) (input : input_file brake_data)
    (o : Synthetic.output) :
  written (Synthetic.convert (Synthetic.new_converter now) input) = Some o ->
  well_linked [] (Synthetic.out_work_items o)
  /\ Forall (fun it =>
               Forall (fun l => target_id l ∈ heading_ids_of (Synthetic.out_work_items o))
                 (default [] (fi_links it)))
       (Synthetic.out_work_items o).
Proof.
  intros H.
  apply synthetic_fresh_output in H as (data & _ & (_ & _ & _ & Hwl) & _).
  assert (well_linked [] (Synthetic.out_work_items o)) as Hw by (by apply Hwl).
  split; [exact Hw|].
  apply well_linked_targets in Hw. eapply Forall_impl; [exact Hw|].
  intros it Hit. eapply Forall_impl; [exact Hit|].
  intros l [Hin|Hin]; [by apply elem_of_nil in Hin|exact Hin].
Qed.

Lemma synthetic_links_resolve_witness :
  exists o,
    written (Synthetic.convert (Synthetic.new_converter "T") (Json sample_data)) = Some o
    /\ well_linked [] (Synthetic.out_work_items o).
Proof.
  eexists. split; [reflexivity|].
  apply (proj1 (synthetic_links_resolve "T" (Json sample_data) _ eq_refl)).
Defined.

(** ** When the synthetic converter succeeds *)

Section SyntheticReturns.





End SyntheticReturns.



(** ** What validation reports *)

Lemma find_first {A} (p : A -> bool) (l : list A) x :
  List.find p l = Some x ->
  exists before after,
    l = before ++ x :: after /\ p x = true /\ Forall (fun y => p y = false) before.
Proof.
  induction l as [|y l IH]; simpl; [discriminate|].
  destruct (p y) eqn:Hy.
  - intros [= <-]. exists [], l. by repeat split.
  - intros H. destruct (IH H) as (before & after & -> & Hx & Hb).
    exists (y :: before), after. repeat split; [done|]. by constructor.
Qed.

Lemma find_none {A} (p : A -> bool) (l : list A) :
  List.find p l = None -> Forall (fun y => p y = false) l.
Proof.
  induction l as [|y l IH]; simpl; [constructor|].
  destruct (p y) eqn:Hy; [discriminate|]. intros H. constructor; auto.
Qed.

(** X15. [validate_input] accepts silently and rejects with exactly one
    line: the missing ["document"], or the first key of id, title,
    project, space, chapters (in this order) that the document lacks, or,
    when all five are there, that ["chapters"] is not a list. *)
Theorem validate_input_reports (data : brake_data) :
  match validate_input data with
  | (true, msgs) => msgs = []
  | (false, msgs) =>
      (data_document data = None /\ msgs = [missing_document_msg])
      \/ (exists doc before key after,
             data_document data = Some doc
             /\ required_keys = before ++ key :: after
             /\ Forall (fun k => doc_has_key doc k = true) before
             /\ doc_has_key doc key = false
             /\ msgs = [missing_key_msg key])
      \/ (exists doc,
             data_document data = Some doc
             /\ Forall (fun k => doc_has_key doc k = true) required_keys
             /\ (forall cs, doc_chapters doc <> Some (ChaptersList cs))
             /\ msgs = [chapters_not_list_msg])
  end.
Proof.
  unfold validate_input. destruct (data_document data) as [doc|]; [|by left].
  destruct (List.find _ required_keys) as [key|] eqn:Hf.
  - right. left. apply find_first in Hf as (before & after & Hl & Hk & Hb).
    exists doc, before, key, after. split; [done|]. split; [done|].
    split; [|split; [by apply negb_true_iff in Hk|done]].
    eapply Forall_impl; [exact Hb|]. intros k. apply negb_false_iff.
  - apply find_none in Hf.
    assert (Forall (fun k => doc_has_key doc k = true) required_keys) as Hall.
    { eapply Forall_impl; [exact Hf|]. intros k. apply negb_false_iff. }
    destruct (doc_chapters doc) as [[cs|]|] eqn:Hc; [done|..];
      right; right; exists doc;
      (split; [reflexivity|]); (split; [exact Hall|]);
      (split; [intros cs'; rewrite Hc; discriminate|reflexivity]).
Qed.

Example validate_input_first_missing_key :
  validate_input
    {| data_document :=
         Some {| doc_id := Some "D"; doc_title := None; doc_project := None;
                 doc_space := Some "S"; doc_version := None; doc_created := None;
                 doc_chapters := None |} |}
  = (false, ["Missing required key 'title' in document"]).
Proof. reflexivity. Qed.

(** ** The scripts' own checks always pass *)





(** ** The bundle of the exact converter holds every requirement *)

(** X17. The bundle of the exact converter holds every work item of the
    tree exactly once: the top-level [work_item], when there is one, and
    the [children] together are as many as the tree has work items, and
    the top-level item is missing only for a tree without work items. *)
Theorem exact_bundle_complete (self : Exact.converter) (data : brake_data)
    (out : Exact.output) :
  Exact.convert_requirements self data = Ok out ->
  (match Exact.out_work_item out with Some _ => 1 | None => 0 end)
  + length (Exact.out_children out)
  = total_workitems (chapters_of data)
  /\ (Exact.out_work_item out = None <-> total_workitems (chapters_of data) = 0)
  /\ (Exact.out_work_item out = None -> Exact.out_links out = []).
Proof.
  unfold Exact.convert_requirements. intros H.
  apply bind_Ok_inv in H as (cs & Hcs & H).
  apply iter_chapters_of in Hcs. subst cs.
  rewrite collect_requirements_in_order in H.
  rewrite <- length_requirements_in_order.
  destruct (requirements_in_order (chapters_of data)) as [|first rest].
  - apply Ok_inj in H. by subst out.
  - apply bind_Ok_inv in H as (wi & _ & H).
    apply bind_Ok_inv in H as (children & Hch & H).
    apply Ok_inj in H. subst out. cbn [Exact.out_work_item Exact.out_children length].
    eapply for_each_singles with (R := fun _ _ => True) in Hch as (ys & -> & HF).
    + apply Forall2_length in HF. cbn [app length]. rewrite HF.
      split; [done|]. split; [|discriminate]. split; discriminate.
    + intros acc r acc' Hb. apply bind_Ok_inv in Hb as (w & _ & Hb).
      apply Ok_inj in Hb. subst acc'. by exists w.
Qed.

Lemma exact_bundle_complete_witness :
  exists out,
    Exact.convert_requirements sample_exact sample_data = Ok out
    /\ length (Exact.out_children out) = 2.
Proof.
  eexists. split; [reflexivity|].
  exact (f_equal Nat.pred
           (proj1 (exact_bundle_complete sample_exact sample_data _ eq_refl))).
Defined.

(** ** Outline numbers of the no-headings converter *)

Lemma flat_requirement_outline d r l o it :
  flat_requirement d r l o = Ok it -> fi_outlineNumber it = Some o.
Proof.
  unfold flat_requirement. intros H.
  repeat (apply bind_Ok_inv in H as (? & _ & H)).
  apply Ok_inj in H. by subst it.
Qed.

Lemma append_requirements_outlines (self : NoHeadings.converter) title prefix ws :
  forall start acc out,
    for_each
      (fun items '(idx, workitem) =>
         let outline := (prefix ++ "." ++ str_of_nat idx)%string in
         w ← NoHeadings.create_requirement_workitem self workitem title outline;
         mret (items ++ [w]))
      (enumerate start ws) acc = Ok out ->
    map fi_outlineNumber out
    = map fi_outlineNumber acc
      ++ map (fun i => Some (prefix ++ "." ++ str_of_nat i)%string)
           (seq start (length ws)).
Proof.
  induction ws as [|w ws IH]; intros start acc out H.
  - simpl in H. apply Ok_inj in H. subst out. simpl. by rewrite app_nil_r.
  - cbn [enumerate for_each] in H. cbv zeta in H.
    destruct (NoHeadings.create_requirement_workitem self w title
                (prefix ++ "." ++ str_of_nat start)) as [it|] eqn:Hit;
      [|discriminate].
    cbn [mbind result_mbind result_bind mret result_ret] in H.
    apply IH in H. rewrite H, map_app. cbn [length seq map].
    rewrite <- app_assoc. do 2 f_equal.
    unfold NoHeadings.create_requirement_workitem in Hit.
    by rewrite (flat_requirement_outline _ _ _ _ _ Hit).
Qed.

Lemma subchapter_loop_outlines (self : NoHeadings.converter) cn (subs : list subchapter) :
  forall start acc out,
    for_each
      (fun items '(sub_idx, subchapter) =>
         sub_items ← NoHeadings.process_subchapter self subchapter cn sub_idx;
         mret (items ++ sub_items))
      (enumerate start subs) acc = Ok out ->
    map fi_outlineNumber out
    = map fi_outlineNumber acc
      ++ concat
           (map (fun js =>
                   map (fun i => Some (sub_outline cn (fst js) i))
                     (seq 1 (length (default [] (sub_workitems (snd js))))))
              (enumerate start subs)).
Proof.
  induction subs as [|s subs IH]; intros start acc out H.
  - simpl in H. apply Ok_inj in H. subst out. simpl. by rewrite app_nil_r.
  - cbn [enumerate for_each] in H.
    destruct (NoHeadings.process_subchapter self s cn start) as [its|] eqn:Hs;
      [|discriminate].
    cbn [mbind result_mbind result_bind mret result_ret] in H.
    apply IH in H. rewrite H, map_app. cbn [enumerate map concat fst snd].
    rewrite <- app_assoc. do 2 f_equal.
    unfold NoHeadings.process_subchapter in Hs.
    apply bind_Ok_inv in Hs as (t & _ & Hs).
    destruct (sub_workitems s) as [ws|]; cbn [from_option id length seq map].
    + unfold NoHeadings.append_requirements in Hs.
      apply append_requirements_outlines in Hs. exact Hs.
    + apply Ok_inj in Hs. by subst its.
Qed.

(** X18. The no-headings converter numbers the items of chapter [cn] in
    reading order: its own work items get "cn.1", "cn.2", ..., the work
    items of its [j]-th subchapter "cn.j.1", "cn.j.2", ... *)
Theorem no_headings_outlines (self : NoHeadings.converter) (c : chapter)
    (cn : nat) (items : list flat_item) :
  NoHeadings.process_chapter self c cn = Ok items ->
  map fi_outlineNumber items = expected_outlines cn c.
Proof.
  unfold NoHeadings.process_chapter, expected_outlines. intros H.
  apply bind_Ok_inv in H as (t & _ & H).
  apply bind_Ok_inv in H as (own & Hown & H).
  assert (map fi_outlineNumber own
          = map (fun i => Some (own_outline cn i))
              (seq 1 (length (default [] (ch_workitems c))))) as Hown'.
  { destruct (ch_workitems c) as [[|w ws]|].
    - apply Ok_inj in Hown. by subst own.
    - unfold NoHeadings.append_requirements in Hown.
      apply append_requirements_outlines in Hown. exact Hown.
    - apply Ok_inj in Hown. by subst own. }
  destruct (ch_subchapters c) as [subs|]; cbn [from_option id].
  - apply subchapter_loop_outlines in H. by rewrite H, Hown'.
  - apply Ok_inj in H. subst items. simpl. by rewrite app_nil_r.
Qed.

Lemma no_headings_outlines_witness :
  exists items,
    NoHeadings.process_chapter (NoHeadings.new_converter "T" None) sample_chapter 3
    = Ok items
    /\ map fi_outlineNumber items = [Some "3.1"; Some "3.1.1"; Some "3.1.2"].
Proof.
  eexists. split; [reflexivity|].
  rewrite (no_headings_outlines (NoHeadings.new_converter "T" None) sample_chapter 3
             _ eq_refl).
  reflexivity.
Defined.
